(** * caret_analyze: the bokeh source builders and the callback scheduling plot

    A shallow embedding of

      - [plot/visualize_lib/bokeh/bokeh_source.py]
        ([LegendManager], [BokehSourceInterface], [RectValues],
        [CallbackSchedRectSource], [CallbackSchedBarSource], [LineSource]);
      - [plot/callback_scheduling/callback_scheduling_plot.py]
        ([CallbackSchedulingPlot]).

    Python exceptions are values of [Py.exn] carried by [Py.result];
    Python [int] is [Z]; Python [float] is IEEE 754 binary64, taken from the
    executable specification [SpecFloat] of the standard library; dictionaries
    are [gmap]s; mutable objects are threaded as explicit state. *)

From Stdlib Require Import ZArith Ascii Floats.SpecFloat.
From stdpp Require Import gmap strings list pretty.

Set Default Proof Using "Type".
Set Warnings "-clear-no-such-hyp".

(** ** Exceptions *)

(** Exception classes.  [AssertionError], [NotImplementedError],
    [UnboundLocalError] and [IndexError] are built in;
    [InvalidArgumentError] and [UnsupportedTypeError] are imported from the
    package's [exceptions] module and carry their message.
    [UnsupportedKeyError] and [DataIntegrityError] are the two classes the
    design document adds to the taxonomy; no [raise] in the sources
    constructs them, they are here so that statements about them can be
    written down. *)
Inductive exn : Type :=
| AssertionError
| NotImplementedError
| UnboundLocalError (variable : string)
| IndexError
| InvalidArgumentError (msg : string)
| UnsupportedTypeError (msg : string)
| UnsupportedKeyError
| DataIntegrityError.

Inductive result (A : Type) : Type :=
| Ok (a : A)
| Raise (e : exn).
Arguments Ok {A} a.
Arguments Raise {A} e.

#[global] Instance result_ret : MRet result := fun A a => Ok a.

#[global] Instance result_bind : MBind result := fun A B k r =>
  match r with
  | Ok a => k a
  | Raise e => Raise e
  end.

Definition is_ok {A} (r : result A) : bool :=
  match r with Ok _ => true | Raise _ => false end.

(** ** The fragment of Python the sources rely on *)

Module Py.

(** [range(start, stop, step)] for a positive step, over naturals.  The
    fuel [stop] is enough: every element is below [stop] and they grow. *)
Fixpoint range_from (fuel start stop step : nat) : list nat :=
  match fuel with
  | O => []
  | S fuel' =>
      if (start <? stop)%nat
      then start :: range_from fuel' (start + step) stop step
      else []
  end.

Definition range (start stop step : nat) : list nat :=
  range_from stop start stop step.

(** [l[i:j]] for [0 <= i <= j]. *)
Definition slice {A} (l : list A) (i j : nat) : list A :=
  take (j - i) (drop i l).

(** [str.lower] on ASCII text; other bytes are left alone. *)
Definition lower_ascii (c : ascii) : ascii :=
  let n := nat_of_ascii c in
  if ((65 <=? n) && (n <=? 90))%nat then ascii_of_nat (n + 32) else c.

Fixpoint lower (s : string) : string :=
  match s with
  | EmptyString => EmptyString
  | String c s' => String (lower_ascii c) (lower s')
  end.

(** [needle in haystack] on strings. *)
Fixpoint contains (needle haystack : string) : bool :=
  String.prefix needle haystack ||
  match haystack with
  | EmptyString => false
  | String _ rest => contains needle rest
  end.

(** [x in [a, b, ...]] on strings. *)
Definition str_in (x : string) (l : list string) : bool :=
  existsb (String.eqb x) l.

(** *** Numbers *)

Definition prec : Z := 53.
Definition emax : Z := 1024.

Definition float : Type := spec_float.

Definition fadd : float -> float -> float := SFadd prec emax.
Definition fsub : float -> float -> float := SFsub prec emax.
Definition fmul : float -> float -> float := SFmul prec emax.
Definition fdiv : float -> float -> float := SFdiv prec emax.
Definition fabs : float -> float := SFabs.

(** [float(z)], rounding to nearest even.  (CPython raises
    [OverflowError] from about [2^1024] on; the integers of this program
    are nanosecond time stamps and row counts.) *)
Definition float_of_int (z : Z) : float := binary_normalize prec emax z 0 false.

(** A Python number is an [int] or a [float]. *)
Inductive num : Type :=
| Int (z : Z)
| Float (f : float).

Definition to_float (n : num) : float :=
  match n with
  | Int z => float_of_int z
  | Float f => f
  end.

Definition sub (a b : num) : num :=
  match a, b with
  | Int x, Int y => Int (x - y)
  | _, _ => Float (fsub (to_float a) (to_float b))
  end.

(** [a * f] for a float [f]. *)
Definition mul_float (a : num) (f : float) : float := fmul (to_float a) f.

Definition abs (a : num) : num :=
  match a with
  | Int x => Int (Z.abs x)
  | Float f => Float (fabs f)
  end.


Definition f_zero : float := S754_zero false.                    (* 0.0 *)
Definition f_one : float := Eval vm_compute in float_of_int 1.   (* 1.0 *)

(** The literal [1.0e-6], and [10**(-6)], [10**(-9)]: an [int] raised to a
    negative [int] is computed in floating point, and is the double
    nearest to the exact power. *)
Definition f_1em6 : float :=
  Eval vm_compute in fdiv (float_of_int 1) (float_of_int 1000000).
Definition f_1em9 : float :=
  Eval vm_compute in fdiv (float_of_int 1) (float_of_int 1000000000).

(** [numpy.mean] of a non-empty list: the sum in float64, divided by the
    number of elements. *)
Definition np_mean (l : list num) : float :=
  match l with
  | [] => S754_nan
  | x :: xs =>
      fdiv (fold_left fadd (to_float <$> xs) (to_float x))
           (float_of_int (Z.of_nat (length l)))
  end.

(** *** Formatted text

    An f-string is kept as its fragments: literal text (an [int] or a
    [str] argument is rendered on the spot) and [float] arguments, whose
    shortest-repr rendering is left symbolic. *)
Inductive frag : Type :=
| Lit (s : string)
| Repr (f : float).

Definition text : Type := list frag.

Definition fmt_num (n : num) : frag :=
  match n with
  | Int z => Lit (pretty z)
  | Float f => Repr f
  end.

End Py.

(** ** Runtime objects

    The classes of [caret_analyze.runtime] that the sources test with
    [isinstance].  An object has an identity ([id(o)]), a class, and the
    attributes [getattr] can read, already rendered by [str].  These classes
    inherit [__eq__] and [__hash__] from [object], so a dictionary keyed by
    such objects is a dictionary keyed by their identity. *)

Inductive pyclass : Type :=
| TimerCallback (period_ns : Z)
| SubscriptionCallback (subscribe_topic_name : string)
| OtherCallback (name : string)   (* any further subclass of CallbackBase *)
| Communication
| Publisher
| Subscription
| OtherClass (name : string).     (* a class outside these hierarchies *)

Record pyobj : Type := PyObj {
  oid : nat;
  cls : pyclass;
  attrs : gmap string string
}.

(** [type(o).__name__] *)
Definition type_name (o : pyobj) : string :=
  match cls o with
  | TimerCallback _ => "TimerCallback"
  | SubscriptionCallback _ => "SubscriptionCallback"
  | OtherCallback name => name
  | Communication => "Communication"
  | Publisher => "Publisher"
  | Subscription => "Subscription"
  | OtherClass name => name
  end.

(** [isinstance(o, CallbackBase)] *)
Definition is_CallbackBase (o : pyobj) : bool :=
  match cls o with
  | TimerCallback _ | SubscriptionCallback _ | OtherCallback _ => true
  | _ => false
  end.

(** [getattr(o, k)]; [None] stands for [AttributeError]. *)
Definition getattr (o : pyobj) (k : string) : option string := attrs o !! k.

(** ** LegendManager *)

Module LegendManager.

Section WithRenderer.

Context {GlyphRenderer : Type}.

Definition legend_item : Type := string * list GlyphRenderer.

Record t : Type := Build {
  _legend_count_map : gmap string nat;      (* defaultdict(int) *)
  _legend_items : list legend_item;
  _legend : gmap nat string                 (* keyed by the object *)
}.

(** [__init__] *)
Definition init : t :=
  {| _legend_count_map := ∅; _legend_items := []; _legend := ∅ |}.

(** [self._legend_count_map[class_name]] on a [defaultdict(int)] *)
Definition count (lm : t) (class_name : string) : nat :=
  default 0 (_legend_count_map lm !! class_name).

Definition get_label (lm : t) (target_object : pyobj) : string * t :=
  match _legend lm !! oid target_object with
  | Some label => (label, lm)
  | None =>
      let class_name := type_name target_object in
      let label := Py.lower class_name +:+ pretty (count lm class_name) in
      (label,
       {| _legend_count_map :=
            <[class_name := S (count lm class_name)]> (_legend_count_map lm);
          _legend_items := _legend_items lm;
          _legend := <[oid target_object := label]> (_legend lm) |})
  end.

Definition add_legend (lm : t) (target_object : pyobj)
    (renderer : GlyphRenderer) : t :=
  let '(label, lm1) := get_label lm target_object in
  {| _legend_count_map := _legend_count_map lm1;
     _legend_items := _legend_items lm1 ++ [(label, [renderer])];
     _legend := <[oid target_object := label]> (_legend lm1) |}.

(** [get_label] called on each object of a list, in turn. *)
Fixpoint get_labels (lm : t) (targets : list pyobj) : list string * t :=
  match targets with
  | [] => ([], lm)
  | o :: rest =>
      let '(label, lm1) := get_label lm o in
      let '(labels, lm2) := get_labels lm1 rest in
      (label :: labels, lm2)
  end.

(** The part of a bokeh [Figure] that [draw_legends] touches: the [Legend]
    layouts added so far, each with its items and its place, and the click
    policy of the figure's legends. *)
Record Figure : Type := BuildFigure {
  layouts : list (list legend_item * string);
  click_policy : option string
}.

Definition add_layout (figure : Figure) (items : list legend_item)
    (place : string) : Figure :=
  {| layouts := layouts figure ++ [(items, place)];
     click_policy := click_policy figure |}.

Definition truncation_warning (max_legends : Z) : string :=
  "The maximum number of legends drawn by default is " +:+ pretty max_legends
  +:+ ". If you want all legends to be displayed, "
  +:+ "please specify the `full_legends` option to True.".

(** The body of the [for] loop, over the values [i] still to come; the
    second component collects the calls of [logger.warning]. *)
Fixpoint draw_pages (items : list legend_item) (max_legends : Z)
    (full_legends : bool) (indices : list nat)
    (figure : Figure) (log : list string) : Figure * list string :=
  match indices with
  | [] => (figure, log)
  | i :: rest =>
      if negb full_legends && (max_legends <=? Z.of_nat i)%Z
      then (figure, log ++ [truncation_warning max_legends])   (* break *)
      else draw_pages items max_legends full_legends rest
             (add_layout figure (Py.slice items i (i + 10)) "right") log
  end.

Definition draw_legends (lm : t) (figure : Figure) (max_legends : Z)
    (full_legends : bool) : Figure * list string :=
  let '(figure1, log) :=
    draw_pages (_legend_items lm) max_legends full_legends
      (Py.range 0 (length (_legend_items lm) + 10) 10) figure [] in
  ({| layouts := layouts figure1; click_policy := Some "hide" |}, log).

(** The legend entries a figure shows, page after page. *)
Definition emitted (figure : Figure) : list legend_item :=
  concat (fst <$> layouts figure).

Definition empty_figure : Figure := {| layouts := []; click_policy := None |}.

(** A manager on which legends were registered, one after the other. *)
Definition registered (objs : list (pyobj * GlyphRenderer)) : t :=
  fold_left (fun lm '(o, r) => add_legend lm o r) objs init.

End WithRenderer.

Arguments t : clear implicits.
Arguments Figure : clear implicits.
Arguments legend_item : clear implicits.

End LegendManager.

(** ** Column data sources *)

(** A value held in a column: a number, or formatted text. *)
Inductive cell : Type :=
| CNum (n : Py.num)
| CText (t : Py.text).

(** [bokeh.plotting.ColumnDataSource]: column name to column. *)
Abbreviation ColumnDataSource := (gmap string (list cell)).

(** [ColumnDataSource(data={k: [] for k in keys})] *)
Definition empty_source (keys : list string) : ColumnDataSource :=
  list_to_map ((fun k => (k, [])) <$> keys).

(** [source.stream(new_data)]: every column of [new_data] is appended to
    the column of that name.  (bokeh refuses a [new_data] whose keys are not
    exactly the columns of the source; the callers below always pass
    exactly those.) *)
Definition stream (source new_data : ColumnDataSource) : ColumnDataSource :=
  union_with (fun old new => Some (old ++ new)) source new_data.

(** [{**a, **b}] *)
Definition dict_merge (a b : ColumnDataSource) : ColumnDataSource := b ∪ a.

(** ** Computations that use the shared legend manager and may raise

    A source builder holds a reference to the [LegendManager] of the plot;
    the manager is the state that is threaded.  An exception leaves the
    mutations made before it in place. *)

Definition M (St A : Type) : Type := St -> result A * St.

#[global] Instance M_ret {St} : MRet (M St) := fun A a st => (Ok a, st).

#[global] Instance M_bind {St} : MBind (M St) := fun A B k m st =>
  match m st with
  | (Ok a, st') => k a st'
  | (Raise e, st') => (Raise e, st')
  end.

Definition lift {St A} (r : result A) : M St A := fun st => (r, st).

(** [for x in xs: acc = body(acc, x)] *)
Fixpoint for_each {St A X} (xs : list X) (body : A -> X -> M St A) (acc : A)
    : M St A :=
  match xs with
  | [] => mret acc
  | x :: rest => acc' ← body acc x; for_each rest body acc'
  end.

(** ** BokehSourceInterface *)

Module BokehSourceInterface.

Section WithRenderer.

Context {GlyphRenderer : Type}.

Abbreviation LM := (LegendManager.t GlyphRenderer).

(** The abstract method: each source class says which keys it shows. *)
Class SourceKeys : Type :=
  _get_source_keys : pyobj -> result (list string).

Definition _get_description (key : string) (target_object : pyobj)
    : M LM string :=
  if String.eqb key "callback_param" then
    match cls target_object with
    | TimerCallback period_ns =>
        mret ("period_ns = " +:+ pretty period_ns)
    | SubscriptionCallback subscribe_topic_name =>
        mret ("subscribe_topic_name = " +:+ subscribe_topic_name)
    | _ =>
        (* no branch assigned [description]; [return description] fails *)
        lift (Raise (UnboundLocalError "description"))
    end
  else if String.eqb key "legend_label" then
    fun lm =>
      let '(label, lm') := LegendManager.get_label lm target_object in
      (Ok ("legend_label = " +:+ label), lm')
  else
    lift (Raise NotImplementedError).

Definition _get_data_dict `{SourceKeys} (target_object : pyobj)
    : M LM ColumnDataSource :=
  keys ← lift (_get_source_keys target_object);
  for_each keys
    (fun (data_dict : ColumnDataSource) k =>
       match getattr target_object k with
       | Some v => mret (<[k := [CText [Py.Lit (k +:+ " = " +:+ v)]]]> data_dict)
       | None =>
           d ← _get_description k target_object;
           mret (<[k := [CText [Py.Lit d]]]> data_dict)
       end)
    ∅.




End WithRenderer.

End BokehSourceInterface.

(** ** RectValues *)

Module RectValues.

Record t : Type := Build {
  _y : Py.num * Py.num;     (* [y_min, y_max] *)
  _x : Py.num * Py.num      (* [callback_start, callback_end] *)
}.

(** [__init__] *)
Definition new (callback_start callback_end y_min y_max : Py.num) : t :=
  {| _y := (y_min, y_max); _x := (callback_start, callback_end) |}.

Definition x (self : t) : Py.float :=
  Py.np_mean [fst (_x self); snd (_x self)].

Definition y (self : t) : Py.float :=
  Py.np_mean [fst (_y self); snd (_y self)].

Definition width (self : t) : Py.num :=
  Py.abs (Py.sub (fst (_x self)) (snd (_x self))).

Definition height (self : t) : Py.num :=
  Py.abs (Py.sub (fst (_y self)) (snd (_y self))).

End RectValues.

(** ** CallbackSchedRectSource *)

Module CallbackSchedRectSource.

Section WithCollaborators.

Context {GlyphRenderer : Type}.

(** [Clip] and [ClockConverter] come from other packages: a clip is
    opaque here, a converter is its [convert] method. *)
Context {Clip : Type}.

Abbreviation ClockConverter := (Py.num -> Py.float).

(** A row of [DataFrame.itertuples()]: the index, then the columns. *)
Abbreviation row := (list Py.num).

(** [callback.to_dataframe(shaper=clip)] *)
Variable to_dataframe : pyobj -> Clip -> list row.

Abbreviation LM := (LegendManager.t GlyphRenderer).

Definition RECT_HEIGHT : Py.float :=
  Eval vm_compute in Py.fdiv (Py.float_of_int 3) (Py.float_of_int 10).

Definition _RECT_Y_STEP : Py.float :=
  Eval vm_compute in Py.fdiv (Py.float_of_int (-3)) (Py.float_of_int 2).

Record t : Type := Build {
  _rect_y_base : Py.float;
  _clip : Clip;
  _converter : option ClockConverter
}.

(** [__init__] *)
Definition new (clip : Clip) (converter : option ClockConverter) : t :=
  {| _rect_y_base := S754_zero false; _clip := clip; _converter := converter |}.

Definition rect_y_base (self : t) : Py.float := _rect_y_base self.

#[export] Instance source_keys : BokehSourceInterface.SourceKeys :=
  fun target_object =>
    if is_CallbackBase target_object
    then Ok ["legend_label"; "callback_start"; "callback_end"; "latency"]
    else Raise NotImplementedError.

(** [row[1]] and [row[-1]] *)
Definition row_first (r : row) : result Py.num :=
  match r !! 1%nat with Some v => Ok v | None => Raise IndexError end.

Definition row_last (r : row) : result Py.num :=
  match last r with Some v => Ok v | None => Raise IndexError end.

Definition convert (self : t) (v : Py.num) : Py.num :=
  match _converter self with
  | Some converter => Py.Float (converter v)
  | None => v
  end.

(** The latency shown for one row, in milliseconds. *)
Definition latency_ms (callback_start callback_end : Py.num) : Py.float :=
  Py.mul_float (Py.sub callback_end callback_start) Py.f_1em6.

(** The body of the loop over the rows. *)
Definition generate_row (self : t) (callback : pyobj)
    (rect_source : ColumnDataSource) (r : row) : M LM ColumnDataSource :=
  first ← lift (row_first r);
  let callback_start := convert self first in
  final ← lift (row_last r);
  let callback_end := convert self final in
  let rect :=
    RectValues.new callback_start callback_end
      (Py.Float (Py.fsub (_rect_y_base self) RECT_HEIGHT))
      (Py.Float (Py.fadd (_rect_y_base self) RECT_HEIGHT)) in
  legend_label ←
    BokehSourceInterface._get_description "legend_label" callback;
  mret (stream rect_source
    (list_to_map
       [("legend_label", [CText [Py.Lit legend_label]]);
        ("x", [CNum (Py.Float (RectValues.x rect))]);
        ("y", [CNum (Py.Float (RectValues.y rect))]);
        ("width", [CNum (RectValues.width rect)]);
        ("height", [CNum (RectValues.height rect)]);
        ("callback_start",
          [CText [Py.Lit "callback_start = "; Py.fmt_num callback_start;
                  Py.Lit " [ns]"]]);
        ("callback_end",
          [CText [Py.Lit "callback_end = "; Py.fmt_num callback_end;
                  Py.Lit " [ns]"]]);
        ("latency",
          [CText [Py.Lit "latency = ";
                  Py.Repr (latency_ms callback_start callback_end);
                  Py.Lit " [ms]"]])])).

Definition generate (self : t) (callback : pyobj) : M LM ColumnDataSource :=
  keys ← lift (BokehSourceInterface._get_source_keys callback);
  let rect_source := empty_source (["x"; "y"; "width"; "height"] ++ keys) in
  let latency_table := to_dataframe callback (_clip self) in
  for_each latency_table (generate_row self callback) rect_source.

Definition update_rect_y_base (self : t) : t :=
  {| _rect_y_base := Py.fadd (_rect_y_base self) _RECT_Y_STEP;
     _clip := _clip self;
     _converter := _converter self |}.

End WithCollaborators.

End CallbackSchedRectSource.

(** ** CallbackSchedBarSource *)

Module CallbackSchedBarSource.

Section WithRenderer.

Context {GlyphRenderer : Type}.

Abbreviation LM := (LegendManager.t GlyphRenderer).

Record t : Type := Build {
  _frame_min : Py.num;
  _frame_max : Py.num
}.

#[export] Instance source_keys : BokehSourceInterface.SourceKeys :=
  fun target_object =>
    if is_CallbackBase target_object
    then Ok ["legend_label"; "node_name"; "callback_name";
             "callback_type"; "callback_param"; "symbol"]
    else Raise NotImplementedError.

(** The literal [0.5] *)
Definition f_half : Py.float :=
  Eval vm_compute in Py.fdiv (Py.float_of_int 1) (Py.float_of_int 2).

Definition generate (self : t) (callback : pyobj) (rect_y_base : Py.float)
    : M LM ColumnDataSource :=
  data_dict ← BokehSourceInterface._get_data_dict callback;
  let rect :=
    RectValues.new (_frame_min self) (_frame_max self)
      (Py.Float (Py.fsub rect_y_base f_half))
      (Py.Float (Py.fadd rect_y_base f_half)) in
  mret (dict_merge
          (list_to_map
             [("x", [CNum (Py.Float (RectValues.x rect))]);
              ("y", [CNum (Py.Float (RectValues.y rect))]);
              ("width", [CNum (RectValues.width rect)]);
              ("height", [CNum (RectValues.height rect)])])
          data_dict).

End WithRenderer.

End CallbackSchedBarSource.

(** ** LineSource *)

Module LineSource.

Section WithRenderer.

Context {GlyphRenderer : Type}.

Abbreviation LM := (LegendManager.t GlyphRenderer).

(** [RecordsInterface], as far as it is read here: the column names, and
    the series of a named column, in which a value may be [None]. *)
Record RecordsInterface : Type := BuildRecords {
  columns : list string;
  get_column_series : string -> list (option Py.num)
}.

Record t : Type := Build {
  _frame_min : Py.num;
  _xaxis_type : string
}.

#[export] Instance source_keys : BokehSourceInterface.SourceKeys :=
  fun target_object =>
    if is_CallbackBase target_object then
      Ok ["legend_label"; "node_name"; "callback_name"; "callback_type";
          "callback_param"; "symbol"]
    else
      match cls target_object with
      | Communication =>
          Ok ["legend_label"; "topic_name";
              "publish_node_name"; "subscribe_node_name"]
      | Publisher | Subscription =>
          Ok ["legend_label"; "node_name"; "topic_name"]
      | _ => Raise NotImplementedError
      end.

(** The inner function of [_get_x_y]: the list without its [None]s, and
    the assertion that none was dropped. *)
Definition ensure_not_none (target_seq : list (option Py.num))
    : result (list Py.num) :=
  let not_none_list := omap id target_seq in
  if (length target_seq =? length not_none_list)%nat
  then Ok not_none_list
  else Raise AssertionError.

(** [l[i]] on a list *)
Definition item (l : list string) (i : nat) : result string :=
  match l !! i with Some v => Ok v | None => Raise IndexError end.

(** The test on the name of the value column. *)
Definition is_time_column (value_column : string) : bool :=
  Py.contains "latency" (Py.lower value_column)
  || Py.contains "period" (Py.lower value_column).

Definition _get_x_y (self : t) (timeseries_records : RecordsInterface)
    : result (list Py.num * list Py.num) :=
  ts_column ← item (columns timeseries_records) 0;
  value_column ← item (columns timeseries_records) 1;
  timestamps ← ensure_not_none (get_column_series timeseries_records ts_column);
  values ← ensure_not_none (get_column_series timeseries_records value_column);
  let values :=
    if is_time_column value_column
    then (fun v => Py.Float (Py.mul_float v Py.f_1em6)) <$> (values : list Py.num)
    else values in                                       (* [ns] -> [ms] *)
  let y_item := values in
  x_item ←
    (if String.eqb (_xaxis_type self) "system_time" then
       Ok ((fun ts => Py.Float (Py.mul_float (Py.sub ts (_frame_min self)) Py.f_1em9))
             <$> (timestamps : list Py.num))
     else if String.eqb (_xaxis_type self) "index" then
       Ok ((fun i => Py.Int (Z.of_nat i)) <$> Py.range 0 (length values) 1)
     else if String.eqb (_xaxis_type self) "sim_time" then
       Ok timestamps
     else
       (* no branch assigned [x_item]; [return x_item, y_item] fails *)
       Raise (UnboundLocalError "x_item"));
  mret (x_item, y_item).

Definition generate (self : t) (target_object : pyobj)
    (timeseries_records : RecordsInterface) : M LM ColumnDataSource :=
  keys ← lift (BokehSourceInterface._get_source_keys target_object);
  let line_source := empty_source (["x"; "y"] ++ keys) in
  data_dict ← BokehSourceInterface._get_data_dict target_object;
  '(x_item, y_item) ← lift (_get_x_y self timeseries_records);
  mret (fold_left
          (fun source '(x, y) =>
             stream source
               (dict_merge (list_to_map [("x", [CNum x]); ("y", [CNum y])])
                           data_dict))
          (zip x_item y_item) line_source).

End WithRenderer.

End LineSource.

(** ** CallbackSchedulingPlot *)

Module CallbackSchedulingPlot.

(** Modelled from the spec: [caret_analyze.common.UniqueList], which is not
    among the sources.  The design document describes the collection built
    for a path as de-duplicated and insertion-order-preserving: [append]
    adds an element at the end unless an equal one is already present, and
    [as_list] gives the elements in that order. *)
Module UniqueList.

Section WithElem.

Context {A : Type} `{EqDecision A}.

Definition t : Type := list A.

Definition new : t := [].

Definition append (self : t) (i : A) : t :=
  if bool_decide (i ∈ self) then self else self ++ [i].

Definition as_list (self : t) : list A := self.

End WithElem.

End UniqueList.

Section WithCollaborators.

(** [CallbackGroup] is a runtime class compared by identity. *)
Context {CallbackGroup : Type} `{EqDecision CallbackGroup}.

(** What [VisualizeLibInterface.callback_scheduling] returns. *)
Context {Figure : Type}.

(** A node, as far as it is read here. *)
Record Node : Type := BuildNode {
  callback_groups : option (list CallbackGroup)
}.

(** A communication of a path, as far as it is read here. *)
Record Communication : Type := BuildCommunication {
  publish_node : Node;
  subscribe_node : Node
}.

(** The argument of the constructor: [CallbackGroupTypes]. *)
Inductive target : Type :=
| Application (callback_groups : option (list CallbackGroup))
| Executor (callback_groups : option (list CallbackGroup))
| ANode (node : Node)
| Path (communications : list Communication)
| ACallbackGroup (cbg : CallbackGroup)
| Sequence (cbgs : list CallbackGroup).

(** [x or []] *)
Definition or_empty (x : option (list CallbackGroup)) : list CallbackGroup :=
  default [] x.

Definition aggregate_groups (groups : option (list CallbackGroup))
    : result (list CallbackGroup) :=
  match groups with
  | None => Raise (InvalidArgumentError "target.callback_groups is None")
  | Some l => Ok l
  end.

Definition _get_callback_groups (target_objects : target)
    : result (list CallbackGroup) :=
  match target_objects with
  | Application groups | Executor groups => aggregate_groups groups
  | ANode node => aggregate_groups (callback_groups node)
  | Path communications =>
      let _callback_groups :=
        fold_left
          (fun acc comm =>
             fold_left UniqueList.append
               (or_empty (callback_groups (publish_node comm))) acc)
          communications UniqueList.new in
      match last communications with
      | None => Raise IndexError          (* [communications[-1]] *)
      | Some final =>
          let _callback_groups :=
            fold_left UniqueList.append
              (or_empty (callback_groups (subscribe_node final)))
              _callback_groups in
          if (length _callback_groups =? 0)%nat
          then Raise (InvalidArgumentError "target.callback_groups is None")
          else Ok (UniqueList.as_list _callback_groups)
      end
  | ACallbackGroup cbg => Ok [cbg]
  | Sequence cbgs => Ok cbgs
  end.

(** The call that [figure] delegates to, with its arguments. *)
Record callback_scheduling_call : Type := BuildCall {
  arg_callback_groups : list CallbackGroup;
  arg_xaxis_type : string;
  arg_ywheel_zoom : bool;
  arg_full_legends : bool;
  arg_coloring_rule : string;
  arg_lstrip_s : Py.num;
  arg_rstrip_s : Py.num
}.

(** [VisualizeLibInterface.callback_scheduling]: it is there that the
    source builders run. *)
Variable callback_scheduling : callback_scheduling_call -> Figure.

Record t : Type := Build {
  _target_objects : target;
  _callback_groups : list CallbackGroup
}.

(** [__init__] *)
Definition new (target_objects : target) : result t :=
  groups ← _get_callback_groups target_objects;
  mret {| _target_objects := target_objects; _callback_groups := groups |}.

Definition _validate_xaxis_type (xaxis_type : string) : result unit :=
  if negb (Py.str_in xaxis_type ["system_time"; "sim_time"]) then
    Raise (UnsupportedTypeError
      ("Unsupported xaxis_type. xaxis_type = " +:+ xaxis_type +:+ ". "
       +:+ "supported xaxis_type: [system_time/sim_time]"))
  else Ok ().

(** [figure]: the calls made to the visualize library, and the outcome. *)
Definition figure (self : t) (xaxis_type : string) (ywheel_zoom : bool)
    (full_legends : bool) (coloring_rule : string)
    (lstrip_s rstrip_s : Py.num)
    : list callback_scheduling_call * result Figure :=
  match _validate_xaxis_type xaxis_type with
  | Raise e => ([], Raise e)
  | Ok _ =>
      if negb (Py.str_in coloring_rule ["callback"; "callback_group"; "node"])
      then
        ([], Raise (UnsupportedTypeError
          ("Unsupported coloring_rule. coloring_rule = " +:+ coloring_rule
           +:+ ". "
           +:+ "supported coloring_rule: [callback/callback_group/node]")))
      else
        let call :=
          {| arg_callback_groups := _callback_groups self;
             arg_xaxis_type := xaxis_type;
             arg_ywheel_zoom := ywheel_zoom;
             arg_full_legends := full_legends;
             arg_coloring_rule := coloring_rule;
             arg_lstrip_s := lstrip_s;
             arg_rstrip_s := rstrip_s |} in
        ([call], Ok (callback_scheduling call))
  end.

(** What [bokeh.plotting.show] and [bokeh.plotting.save] do to the outside
    world. *)
Inductive output : Type :=
| Shown (p : Figure)
| Saved (p : Figure) (export_path title : string).

(** [show]: the calls made to the visualize library, what was displayed,
    and the outcome.  The [export_path] argument of the method is not read. *)
Definition show (self : t) (xaxis_type : string) (ywheel_zoom : bool)
    (full_legends : bool) (export_path : option string)
    (coloring_rule : string) (lstrip_s rstrip_s : Py.num)
    : list callback_scheduling_call * list output * result Figure :=
  match figure self xaxis_type ywheel_zoom full_legends coloring_rule
          lstrip_s rstrip_s with
  | (calls, Raise e) => (calls, [], Raise e)
  | (calls, Ok p) => (calls, [Shown p], Ok p)
  end.

(** [save]: likewise; it returns [None]. *)
Definition save (self : t) (export_path title : string) (xaxis_type : string)
    (ywheel_zoom : bool) (full_legends : bool)
    (coloring_rule : string) (lstrip_s rstrip_s : Py.num)
    : list callback_scheduling_call * list output * result unit :=
  match figure self xaxis_type ywheel_zoom full_legends coloring_rule
          lstrip_s rstrip_s with
  | (calls, Raise e) => (calls, [], Raise e)
  | (calls, Ok p) => (calls, [Saved p export_path title], Ok ())
  end.

End WithCollaborators.

End CallbackSchedulingPlot.

(** ** Notions used to state the properties *)



(** The number of pages of ten whose first index is below [max_legends]. *)
Definition pages_allowed (max_legends : Z) : nat :=
  Z.to_nat ((max_legends + 9) / 10).

(** The [k]-th page of a list of legend entries, placed on the right. *)
Definition page {R} (items : list (LegendManager.legend_item R)) (k : nat)
    : list (LegendManager.legend_item R) * string :=
  (Py.slice items (10 * k) (10 * k + 10), "right").

Definition with_pages {R} (figure : LegendManager.Figure R)
    (ps : list (list (LegendManager.legend_item R) * string))
    : LegendManager.Figure R :=
  {| LegendManager.layouts := LegendManager.layouts figure ++ ps;
     LegendManager.click_policy := LegendManager.click_policy figure |}.

(** The union of a list with itself, in the words of the design document:
    de-duplicated, in the order of first insertion. *)
Fixpoint ordered_union {A} `{EqDecision A} (l : list A) : list A :=
  match l with
  | [] => []
  | x :: rest => x :: filter (fun y => y <> x) (ordered_union rest)
  end.

(** The classes for which [_get_description] has a [callback_param]
    branch. *)
Definition resolves_param (o : pyobj) : Prop :=
  match cls o with
  | TimerCallback _ | SubscriptionCallback _ => True
  | _ => False
  end.


(** [comm.publish_node.callback_groups or []] and
    [comm.subscribe_node.callback_groups or []] *)
Definition publish_groups {CallbackGroup}
    (comm : CallbackSchedulingPlot.Communication (CallbackGroup := CallbackGroup))
    : list CallbackGroup :=
  CallbackSchedulingPlot.or_empty
    (CallbackSchedulingPlot.callback_groups
       (CallbackSchedulingPlot.publish_node comm)).

Definition subscribe_groups {CallbackGroup}
    (comm : CallbackSchedulingPlot.Communication (CallbackGroup := CallbackGroup))
    : list CallbackGroup :=
  CallbackSchedulingPlot.or_empty
    (CallbackSchedulingPlot.callback_groups
       (CallbackSchedulingPlot.subscribe_node comm)).

(** ** Inputs used in the examples *)

(** [n] timer callbacks, each registered with a renderer handle. *)
Definition timer_callbacks (n : nat) : list (pyobj * nat) :=
  (fun i => (PyObj i (TimerCallback 100000000) ∅, i)) <$> seq 0 n.

(** Two callbacks of a class named [Callback], alike in everything but
    their identity. *)
Definition callback_a : pyobj := PyObj 1 (OtherCallback "Callback") ∅.
Definition callback_b : pyobj := PyObj 2 (OtherCallback "Callback") ∅.

(** The attributes every callback has. *)
Definition callback_attrs (callback_name callback_type : string)
    : gmap string string :=
  list_to_map [("node_name", "/talker"); ("callback_name", callback_name);
               ("callback_type", callback_type); ("symbol", "Talker::run()")].

Definition timer_cb : pyobj :=
  PyObj 10 (TimerCallback 100000000)
    (callback_attrs "timer_callback_0" "timer_callback").

Definition subscription_cb : pyobj :=
  PyObj 11 (SubscriptionCallback "/chatter")
    (callback_attrs "subscription_callback_0" "subscription_callback").

(** A callback of a further subclass of [CallbackBase]. *)
Definition service_cb : pyobj :=
  PyObj 12 (OtherCallback "ServiceCallback")
    (callback_attrs "service_callback_0" "service_callback").

(** Records given column by column. *)
Definition records_of (cols : list (string * list (option Py.num)))
    : LineSource.RecordsInterface :=
  {| LineSource.columns := cols.*1;
     LineSource.get_column_series := fun name =>
       default [] ((list_to_map cols : gmap string (list (option Py.num))) !! name) |}.

Definition latency_records : LineSource.RecordsInterface :=
  records_of
    [("callback_start_timestamp", [Some (Py.Int 10); Some (Py.Int 1000000010)]);
     ("latency", [Some (Py.Int 1000000); Some (Py.Int 2000000)])].

Definition records_with_none : LineSource.RecordsInterface :=
  records_of
    [("callback_start_timestamp", [Some (Py.Int 10); Some (Py.Int 1000000010)]);
     ("latency", [Some (Py.Int 1000000); None])].

(** A data frame with one execution, from 0 ns to 1 000 000 ns. *)
Definition one_execution (callback : pyobj) (clip : unit) : list (list Py.num) :=
  [[Py.Int 0; Py.Int 0; Py.Int 1000000]].

(** A path of two hops over three nodes; the last node has no groups. *)
Definition node_of (groups : option (list string))
    : CallbackSchedulingPlot.Node (CallbackGroup := string) :=
  CallbackSchedulingPlot.BuildNode groups.

(** One hop between two nodes that have no callback group in common. *)
Definition disjoint_hop
    : list (CallbackSchedulingPlot.Communication (CallbackGroup := string)) :=
  [CallbackSchedulingPlot.BuildCommunication
     (node_of (Some ["cbg_a"])) (node_of (Some ["cbg_b"]))].

Definition two_hops
    : list (CallbackSchedulingPlot.Communication (CallbackGroup := string)) :=
  [CallbackSchedulingPlot.BuildCommunication
     (node_of (Some ["cbg_a"; "cbg_b"])) (node_of (Some ["cbg_b"; "cbg_c"]));
   CallbackSchedulingPlot.BuildCommunication
     (node_of (Some ["cbg_b"; "cbg_c"])) (node_of None)].

(** ** Further notions used to state the properties *)




(** A source key that [_get_data_dict] can fill in for an object: the
    object has the attribute, or the key is [legend_label], or it is
    [callback_param] and the object is a timer or subscription callback. *)
Definition resolvable (o : pyobj) (k : string) : Prop :=
  is_Some (getattr o k) \/ k = "legend_label"
  \/ (k = "callback_param" /\ resolves_param o).

(** The body of the loop of [_get_data_dict]. *)
Definition data_dict_step {R} (o : pyobj) (data_dict : ColumnDataSource)
    (k : string) : M (LegendManager.t R) ColumnDataSource :=
  match getattr o k with
  | Some v => mret (<[k := [CText [Py.Lit (k +:+ " = " +:+ v)]]]> data_dict)
  | None =>
      d ← BokehSourceInterface._get_description k o;
      mret (<[k := [CText [Py.Lit d]]]> data_dict)
  end.



(** The row that [CallbackSchedRectSource.generate] streams for an
    execution whose first and last columns are [ends], under the label
    line [legend_label]. *)
Definition rect_row {Clip} (self : CallbackSchedRectSource.t (Clip := Clip))
    (legend_label : string) (ends : Py.num * Py.num) : ColumnDataSource :=
  let callback_start := CallbackSchedRectSource.convert self ends.1 in
  let callback_end := CallbackSchedRectSource.convert self ends.2 in
  let rect :=
    RectValues.new callback_start callback_end
      (Py.Float (Py.fsub (CallbackSchedRectSource._rect_y_base self)
                   CallbackSchedRectSource.RECT_HEIGHT))
      (Py.Float (Py.fadd (CallbackSchedRectSource._rect_y_base self)
                   CallbackSchedRectSource.RECT_HEIGHT)) in
  list_to_map
    [("legend_label", [CText [Py.Lit legend_label]]);
     ("x", [CNum (Py.Float (RectValues.x rect))]);
     ("y", [CNum (Py.Float (RectValues.y rect))]);
     ("width", [CNum (RectValues.width rect)]);
     ("height", [CNum (RectValues.height rect)]);
     ("callback_start",
       [CText [Py.Lit "callback_start = "; Py.fmt_num callback_start;
               Py.Lit " [ns]"]]);
     ("callback_end",
       [CText [Py.Lit "callback_end = "; Py.fmt_num callback_end;
               Py.Lit " [ns]"]]);
     ("latency",
       [CText [Py.Lit "latency = ";
               Py.Repr (CallbackSchedRectSource.latency_ms callback_start callback_end);
               Py.Lit " [ms]"]])].

(** The columns of a rect source. *)
Definition rect_columns : list string :=
  ["x"; "y"; "width"; "height";
   "legend_label"; "callback_start"; "callback_end"; "latency"].

(** The first and the last column of a row, when it has both. *)
Definition row_ends (r : list Py.num) : option (Py.num * Py.num) :=
  a ← r !! 1%nat; b ← last r; Some (a, b).

(** The targets from which a plot can be made: an application, an executor
    or a node that has its callback groups; a path with a communication and
    a callback group on a publish node or on the last subscribe node; a
    callback group, or a sequence of them. *)
Definition plottable {CallbackGroup}
    (target_objects : CallbackSchedulingPlot.target (CallbackGroup := CallbackGroup))
    : Prop :=
  match target_objects with
  | CallbackSchedulingPlot.Application groups
  | CallbackSchedulingPlot.Executor groups => groups <> None
  | CallbackSchedulingPlot.ANode node =>
      CallbackSchedulingPlot.callback_groups node <> None
  | CallbackSchedulingPlot.Path communications =>
      exists final,
        last communications = Some final
        /\ concat (publish_groups <$> communications) ++ subscribe_groups final
           <> []
  | CallbackSchedulingPlot.ACallbackGroup _
  | CallbackSchedulingPlot.Sequence _ => True
  end.

(** The options that [figure] accepts. *)
Definition supported_options (xaxis_type coloring_rule : string) : Prop :=
  xaxis_type ∈ ["system_time"; "sim_time"]
  /\ coloring_rule ∈ ["callback"; "callback_group"; "node"].

(** * Properties *)

(** ** Python helpers *)

Section PyFacts.

Lemma range_from_steps (m j fuel stop : nat) :
  m ≤ fuel →
  (∀ k, k < j + m → 10 * k < stop) →
  stop ≤ 10 * (j + m) →
  Py.range_from fuel (10 * j) stop 10 = (fun k => 10 * k) <$> seq j m.
Proof.
  revert j fuel. induction m as [|m IH]; intros j fuel Hfuel Hlt Hge.
  - destruct fuel as [|fuel]; [done|]. simpl.
    destruct (Nat.ltb_spec (j + (j + (j + (j + (j + (j + (j + (j + (j + (j + 0)))))))))) stop); [lia|done].
  - destruct fuel as [|fuel]; [lia|].
    cbn [Py.range_from seq fmap list_fmap].
    assert (10 * j < stop) as Hj by (apply Hlt; lia).
    destruct (Nat.ltb_spec (10 * j) stop); [|lia].
    f_equal. replace (10 * j + 10) with (10 * S j) by lia.
    apply IH; [lia| |lia]. intros k Hk. apply Hlt. lia.
Qed.

Lemma range_pages (n : nat) :
  Py.range 0 (n + 10) 10 = (fun k => 10 * k) <$> seq 0 (S ((n + 9) / 10)).
Proof.
  unfold Py.range.
  apply (range_from_steps (S ((n + 9) / 10)) 0 (n + 10) (n + 10)).
  - pose proof (Nat.Div0.div_le_upper_bound (n + 9) 10 (n + 9)). lia.
  - intros k Hk. pose proof (Nat.div_mod_eq (n + 9) 10).
    pose proof (Nat.mod_upper_bound (n + 9) 10). lia.
  - pose proof (Nat.div_mod_eq (n + 9) 10).
    pose proof (Nat.mod_upper_bound (n + 9) 10). lia.
Qed.

Lemma range_unit (n : nat) : Py.range 0 n 1 = seq 0 n.
Proof.
  unfold Py.range.
  enough (∀ m j fuel, m ≤ fuel → Py.range_from fuel j (j + m) 1 = seq j m) as H
    by (apply (H n 0 n); lia).
  induction m as [|m IH]; intros j fuel Hfuel.
  - destruct fuel; [done|]. simpl. destruct (Nat.ltb_spec j (j + 0)); [lia|done].
  - destruct fuel as [|fuel]; [lia|]. simpl.
    destruct (Nat.ltb_spec j (j + S m)); [|lia].
    f_equal. replace (j + S m) with ((j + 1) + m) by lia.
    replace (S j) with (j + 1) by lia. apply IH. lia.
Qed.

Lemma take_pages {A} (items : list A) (m : nat) :
  concat ((fun k => Py.slice items (10 * k) (10 * k + 10)) <$> seq 0 m)
  = take (10 * m) items.
Proof.
  induction m as [|m IH]; [done|].
  rewrite seq_S, fmap_app, concat_app, IH.
  cbn [fmap list_fmap concat Nat.add]. rewrite app_nil_r.
  unfold Py.slice.
  replace (10 * m + 10 - 10 * m) with 10 by lia.
  replace (10 * S m) with (10 * m + 10) by lia.
  apply take_take_drop.
Qed.

End PyFacts.

(** ** Numbers *)

Section Numbers.






Lemma sub_self_int (x : Z) : Py.abs (Py.sub (Py.Int x) (Py.Int x)) = Py.Int 0.
Proof. cbn. f_equal. lia. Qed.

Lemma sub_self_float (s : bool) (m : positive) (e : Z) :
  Py.abs (Py.sub (Py.Float (S754_finite s m e)) (Py.Float (S754_finite s m e)))
  = Py.Float (S754_zero false).
Proof.
  cbn [Py.sub Py.abs Py.to_float]. unfold Py.fsub. cbn [SFsub].
  rewrite Z.sub_diag. done.
Qed.

End Numbers.

Section Strings.

Lemma prefix_app (n b : string) : String.prefix n (n +:+ b) = true.
Proof.
  induction n as [|c n IH].
  - change (EmptyString +:+ b) with b. by destruct b.
  - change (String.prefix (String c n) (String c n +:+ b))
      with (if Ascii.ascii_dec c c then String.prefix n (n +:+ b) else false).
    by destruct (Ascii.ascii_dec c c).
Qed.

Lemma contains_here (n b : string) : Py.contains n (n +:+ b) = true.
Proof.
  pose proof (prefix_app n b) as H.
  destruct (n +:+ b); cbn [Py.contains]; by rewrite H.
Qed.

Lemma contains_app_r (n a b : string) :
  Py.contains n b = true → Py.contains n (a +:+ b) = true.
Proof.
  intros H. induction a as [|c a IH]; [done|].
  change (String c a +:+ b) with (String c (a +:+ b)).
  cbn [Py.contains]. rewrite IH. apply orb_true_r.
Qed.

Lemma contains_middle (n a b : string) : Py.contains n (a +:+ n +:+ b) = true.
Proof. apply contains_app_r, contains_here. Qed.

Lemma str_in_spec (x : string) (l : list string) :
  Py.str_in x l = true ↔ x ∈ l.
Proof.
  unfold Py.str_in. rewrite existsb_exists. split.
  - intros (y & Hy%list_elem_of_In & ->%String.eqb_eq). done.
  - intros Hx%list_elem_of_In. exists x. split; [done|apply String.eqb_refl].
Qed.

End Strings.


(** ** LegendManager.draw_legends *)

Section DrawLegends.

Context {R : Type}.

Implicit Types (lm : LegendManager.t R) (figure : LegendManager.Figure R).
Implicit Types (items : list (LegendManager.legend_item R)).

Lemma pages_allowed_spec (max_legends : Z) (k : nat) :
  (max_legends <=? Z.of_nat (10 * k))%Z = bool_decide (pages_allowed max_legends ≤ k).
Proof.
  unfold pages_allowed.
  pose proof (Z.div_mod (max_legends + 9) 10 ltac:(lia)).
  pose proof (Z.mod_pos_bound (max_legends + 9) 10 ltac:(lia)).
  destruct (Z.leb_spec max_legends (Z.of_nat (10 * k))); case_bool_decide; lia.
Qed.

Lemma draw_pages_all items max_legends (m j : nat) figure log :
  LegendManager.draw_pages items max_legends true
    ((fun k => 10 * k) <$> seq j m) figure log
  = (with_pages figure (page items <$> seq j m), log).
Proof.
  revert j figure. induction m as [|m IH]; intros j figure.
  - cbn. unfold with_pages. rewrite app_nil_r. by destruct figure.
  - cbn [seq fmap list_fmap LegendManager.draw_pages negb andb].
    rewrite IH. unfold with_pages, LegendManager.add_layout, page.
    cbn [LegendManager.layouts LegendManager.click_policy].
    by rewrite <- app_assoc.
Qed.

Lemma draw_pages_cut items max_legends (m j : nat) figure log :
  j ≤ pages_allowed max_legends →
  LegendManager.draw_pages items max_legends false
    ((fun k => 10 * k) <$> seq j m) figure log
  = (with_pages figure
       (page items <$> seq j (Nat.min (j + m) (pages_allowed max_legends) - j)),
     log ++ (if bool_decide (pages_allowed max_legends < j + m)
             then [LegendManager.truncation_warning max_legends] else [])).
Proof.
  revert j figure. induction m as [|m IH]; intros j figure Hj.
  - cbn [seq fmap list_fmap LegendManager.draw_pages].
    replace (Nat.min (j + 0) (pages_allowed max_legends) - j) with 0 by lia.
    rewrite bool_decide_false by lia. rewrite app_nil_r.
    unfold with_pages. cbn. rewrite app_nil_r. by destruct figure.
  - cbn [seq fmap list_fmap LegendManager.draw_pages negb andb].
    rewrite pages_allowed_spec. case_bool_decide as Hc.
    + assert (pages_allowed max_legends = j) as -> by lia.
      replace (Nat.min (j + S m) j - j) with 0 by lia.
      rewrite bool_decide_true by lia.
      unfold with_pages. cbn. rewrite app_nil_r. by destruct figure.
    + rewrite IH by lia.
      replace (Nat.min (j + S m) (pages_allowed max_legends) - j)
        with (S (Nat.min (S j + m) (pages_allowed max_legends) - S j)) by lia.
      cbn [seq fmap list_fmap].
      unfold with_pages, LegendManager.add_layout.
      cbn [LegendManager.layouts LegendManager.click_policy].
      rewrite <- app_assoc. cbn [app]. unfold page at 3.
      do 2 f_equal. replace (S j + m) with (j + S m) by lia. done.
Qed.

Lemma emitted_with_pages figure items (m : nat) :
  LegendManager.emitted (with_pages figure (page items <$> seq 0 m))
  = LegendManager.emitted figure ++ take (10 * m) items.
Proof.
  unfold LegendManager.emitted, with_pages. cbn [LegendManager.layouts].
  rewrite fmap_app, concat_app. f_equal.
  rewrite <- take_pages. f_equal. rewrite <- list_fmap_compose.
  by apply list_fmap_ext.
Qed.

(** With [full_legends], every entry is drawn and nothing is logged. *)
Lemma draw_legends_full lm figure max_legends :
  let '(figure', log) := LegendManager.draw_legends lm figure max_legends true in
  LegendManager.emitted figure'
    = LegendManager.emitted figure ++ LegendManager._legend_items lm
  ∧ log = []
  ∧ LegendManager.click_policy figure' = Some "hide".
Proof.
  unfold LegendManager.draw_legends.
  rewrite range_pages, draw_pages_all.
  split_and!; [|done..].
  change (LegendManager.emitted ?f) with (concat (LegendManager.layouts f).*1) at 1.
  cbn [LegendManager.layouts].
  change (concat (LegendManager.layouts ?f).*1) with (LegendManager.emitted f).
  rewrite emitted_with_pages. f_equal. apply take_ge.
  pose proof (Nat.div_mod_eq (length (LegendManager._legend_items lm) + 9) 10).
  pose proof (Nat.mod_upper_bound (length (LegendManager._legend_items lm) + 9) 10).
  lia.
Qed.

(** Without it, the pages whose first index is below [max_legends] are
    drawn, whole; the warning is logged once when the loop meets an index
    that is not below [max_legends]. *)
Lemma draw_legends_paged lm figure max_legends :
  let items := LegendManager._legend_items lm in
  let '(figure', log) := LegendManager.draw_legends lm figure max_legends false in
  LegendManager.emitted figure'
    = LegendManager.emitted figure ++ take (10 * pages_allowed max_legends) items
  ∧ log = (if bool_decide (pages_allowed max_legends ≤ (length items + 9) / 10)
           then [LegendManager.truncation_warning max_legends] else [])
  ∧ LegendManager.click_policy figure' = Some "hide".
Proof.
  intros items. unfold LegendManager.draw_legends. fold items.
  rewrite range_pages, draw_pages_cut by lia.
  split_and!; [| |done].
  - change (LegendManager.emitted ?f) with (concat (LegendManager.layouts f).*1) at 1.
    cbn [LegendManager.layouts].
    change (concat (LegendManager.layouts ?f).*1) with (LegendManager.emitted f).
    rewrite Nat.sub_0_r, emitted_with_pages. f_equal.
    pose proof (Nat.div_mod_eq (length items + 9) 10).
    pose proof (Nat.mod_upper_bound (length items + 9) 10).
    destruct (Nat.min_spec (0 + S ((length items + 9) / 10)) (pages_allowed max_legends))
      as [[? ->]|[? ->]]; [|done].
    rewrite !take_ge; [done|lia..].
  - cbn [app]. rewrite (bool_decide_ext (pages_allowed max_legends < 0 + S ((length items + 9) / 10)) (pages_allowed max_legends ≤ (length items + 9) / 10)) by lia. done.
Qed.

End DrawLegends.

Section DrawLegendsClaims.

Context {R : Type}.

(** The example of the design document: 25 entries and the default
    [max_legends] of 20. *)
Example draw_legends_25_entries :
  let lm := LegendManager.registered (timer_callbacks 25) in
  (let '(figure, log) :=
     LegendManager.draw_legends lm LegendManager.empty_figure 20 false in
   LegendManager.emitted figure = take 20 (LegendManager._legend_items lm)
   ∧ length <$> (LegendManager.layouts figure).*1 = [10; 10]
   ∧ log = [LegendManager.truncation_warning 20])
  ∧ (let '(figure, log) :=
       LegendManager.draw_legends lm LegendManager.empty_figure 20 true in
     LegendManager.emitted figure = LegendManager._legend_items lm
     ∧ length (LegendManager.emitted figure) = 25
     ∧ log = []).
Proof. vm_compute. done. Qed.

(** C1. With 25 registered entries, [max_legends = 15] and
    [full_legends = False], [draw_legends] draws 20 entries, five more than
    the maximum it was given, before it logs the warning; with 30 entries and
    [max_legends = 25] it draws all 30 and still logs the warning. *)
Theorem draw_legends_exceeds_max_legends :
  (let lm := LegendManager.registered (timer_callbacks 25) in
   let '(figure, log) :=
     LegendManager.draw_legends lm LegendManager.empty_figure 15 false in
   length (LegendManager._legend_items lm) = 25
   ∧ length (LegendManager.emitted figure) = 20
   ∧ log = [LegendManager.truncation_warning 15])
  ∧ (let lm := LegendManager.registered (timer_callbacks 30) in
     let '(figure, log) :=
       LegendManager.draw_legends lm LegendManager.empty_figure 25 false in
     length (LegendManager._legend_items lm) = 30
     ∧ length (LegendManager.emitted figure) = 30
     ∧ log = [LegendManager.truncation_warning 25]).
Proof. vm_compute. done. Qed.

(** C10. Whenever the number of registered entries is at most
    [max_legends], and [max_legends] is at most the last index the loop
    reaches (the entry count rounded up to a multiple of ten), [draw_legends]
    without [full_legends] draws every entry and logs the truncation warning
    all the same. *)
Theorem draw_legends_warns_without_truncation
    (lm : LegendManager.t R) (max_legends : Z)
    (Hfits : (Z.of_nat (length (LegendManager._legend_items lm)) ≤ max_legends)%Z)
    (Hreached : (max_legends
                 ≤ Z.of_nat (10 * ((length (LegendManager._legend_items lm) + 9) / 10)))%Z) :
  let '(figure, log) :=
    LegendManager.draw_legends lm LegendManager.empty_figure max_legends false in
  LegendManager.emitted figure = LegendManager._legend_items lm
  ∧ log = [LegendManager.truncation_warning max_legends].
Proof.
  pose proof (draw_legends_paged lm LegendManager.empty_figure max_legends) as H.
  cbv zeta in H.
  destruct (LegendManager.draw_legends lm LegendManager.empty_figure max_legends false)
    as [figure log].
  destruct H as (-> & -> & _).
  assert (pages_allowed max_legends * 10 = Z.to_nat (10 * ((max_legends + 9) / 10)))
    as Hpa by (unfold pages_allowed; lia).
  pose proof (Z.div_mod (max_legends + 9) 10 ltac:(lia)).
  pose proof (Z.mod_pos_bound (max_legends + 9) 10 ltac:(lia)).
  split.
  - cbn [LegendManager.emitted LegendManager.empty_figure LegendManager.layouts
         fmap list_fmap concat app].
    apply take_ge. lia.
  - rewrite bool_decide_true; [done|].
    unfold pages_allowed.
    pose proof (Nat.div_mod_eq (length (LegendManager._legend_items lm) + 9) 10).
    lia.
Qed.

End DrawLegendsClaims.

Lemma draw_legends_warns_without_truncation_witness :
  let lm := LegendManager.registered (timer_callbacks 15) in
  length (LegendManager._legend_items lm) = 15
  ∧ (let '(figure, log) :=
       LegendManager.draw_legends lm LegendManager.empty_figure 20 false in
     LegendManager.emitted figure = LegendManager._legend_items lm
     ∧ log = [LegendManager.truncation_warning 20]).
Proof.
  split; [reflexivity|].
  apply (draw_legends_warns_without_truncation
           (LegendManager.registered (timer_callbacks 15)) 20);
    vm_compute; discriminate.
Defined.

(** ** LegendManager.get_label *)

Section GetLabel.

Context {R : Type}.
Implicit Types (lm : LegendManager.t R) (o : pyobj) (os seen : list pyobj).

Lemma get_label_cached lm o :
  LegendManager._legend (LegendManager.get_label lm o).2 !! oid o
  = Some (LegendManager.get_label lm o).1.
Proof.
  unfold LegendManager.get_label.
  destruct (LegendManager._legend lm !! oid o) eqn:E; cbn; [done|].
  by rewrite lookup_insert_eq.
Qed.

Lemma get_label_keeps lm o (id : nat) (l : string) :
  LegendManager._legend lm !! id = Some l →
  LegendManager._legend (LegendManager.get_label lm o).2 !! id = Some l.
Proof.
  intros H. unfold LegendManager.get_label.
  destruct (LegendManager._legend lm !! oid o) eqn:E; cbn; [done|].
  rewrite lookup_insert_ne; [done|]. intros Heq. rewrite Heq in E. congruence.
Qed.

Lemma get_labels_keeps os lm (id : nat) (l : string) :
  LegendManager._legend lm !! id = Some l →
  LegendManager._legend (LegendManager.get_labels lm os).2 !! id = Some l.
Proof.
  revert lm. induction os as [|o os IH]; intros lm H; [done|].
  cbn [LegendManager.get_labels].
  destruct (LegendManager.get_label lm o) as [l0 lm1] eqn:E1.
  destruct (LegendManager.get_labels lm1 os) as [ls lm2] eqn:E2. cbn.
  specialize (IH lm1). rewrite E2 in IH. apply IH.
  pose proof (get_label_keeps lm o id l H) as K. by rewrite E1 in K.
Qed.


Lemma get_labels_length lm os : length (LegendManager.get_labels lm os).1 = length os.
Proof.
  revert lm. induction os as [|o os IH]; intros lm; [done|].
  cbn [LegendManager.get_labels]. destruct (LegendManager.get_label lm o) as [l0 lm1].
  specialize (IH lm1). destruct (LegendManager.get_labels lm1 os). cbn in *. by rewrite IH.
Qed.


End GetLabel.

Section Labels.

Context {R : Type}.
Implicit Types (lm : LegendManager.t R) (o : pyobj) (os seen : list pyobj).








End Labels.

Section LabelsMain.

Context {R : Type}.

Lemma add_legend_labels (lm : LegendManager.t R) (o : pyobj) (r : R) :
  LegendManager._legend (LegendManager.add_legend lm o r)
    = LegendManager._legend (LegendManager.get_label lm o).2
  ∧ LegendManager._legend_count_map (LegendManager.add_legend lm o r)
    = LegendManager._legend_count_map (LegendManager.get_label lm o).2
  ∧ LegendManager._legend_items (LegendManager.add_legend lm o r)
    = LegendManager._legend_items lm ++ [((LegendManager.get_label lm o).1, [r])].
Proof.
  unfold LegendManager.add_legend.
  pose proof (get_label_cached lm o) as Hc.
  destruct (LegendManager.get_label lm o) as [l lm1] eqn:E. cbn in *.
  split_and!; [by apply insert_id|done|].
  f_equal. unfold LegendManager.get_label in E.
  destruct (LegendManager._legend lm !! oid o); by simplify_eq.
Qed.


End LabelsMain.

(** The example of the design document, with a class named [Callback]:
    the first object is [callback0], the second [callback1], and asking
    again for the first gives [callback0] again. *)
Example get_label_callback0_callback1 :
  (LegendManager.get_labels (LegendManager.init (GlyphRenderer := nat))
     [callback_a; callback_b; callback_a]).1
  = ["callback0"; "callback1"; "callback0"].
Proof. reflexivity. Qed.


(** ** BokehSourceInterface *)

Section Description.

Context {R : Type}.
Implicit Types (lm : LegendManager.t R) (o : pyobj).

Lemma description_no_rule (key : string) o lm :
  key ≠ "callback_param" → key ≠ "legend_label" →
  BokehSourceInterface._get_description key o lm = (Raise NotImplementedError, lm).
Proof.
  intros H1 H2. unfold BokehSourceInterface._get_description.
  destruct (String.eqb_spec key "callback_param"); [done|].
  destruct (String.eqb_spec key "legend_label"); [done|]. done.
Qed.

Lemma description_param_unbound o lm :
  ¬ resolves_param o →
  BokehSourceInterface._get_description "callback_param" o lm
  = (Raise (UnboundLocalError "description"), lm).
Proof.
  unfold resolves_param, BokehSourceInterface._get_description. cbn.
  by destruct (cls o).
Qed.

Lemma description_param_ok o lm :
  resolves_param o →
  ∃ d, BokehSourceInterface._get_description "callback_param" o lm = (Ok d, lm).
Proof.
  unfold resolves_param, BokehSourceInterface._get_description. cbn.
  destruct (cls o); intros []; eauto.
Qed.

Lemma description_legend_label o lm :
  BokehSourceInterface._get_description "legend_label" o lm
  = (Ok ("legend_label = " +:+ (LegendManager.get_label lm o).1),
     (LegendManager.get_label lm o).2).
Proof.
  unfold BokehSourceInterface._get_description. cbn.
  by destruct (LegendManager.get_label lm o).
Qed.

(** The loop of [_get_data_dict] stops with [NotImplementedError] at the
    first key that has neither an attribute nor a rule. *)
Lemma data_dict_loop_no_rule o (keys : list string) (k : string)
    (acc : ColumnDataSource) lm :
  k ∈ keys → getattr o k = None →
  k ≠ "callback_param" → k ≠ "legend_label" →
  ("callback_param" ∈ keys → getattr o "callback_param" = None → resolves_param o) →
  (for_each keys
     (fun (data_dict : ColumnDataSource) k =>
        match getattr o k with
        | Some v => mret (<[k := [CText [Py.Lit (k +:+ " = " +:+ v)]]]> data_dict)
        | None =>
            d ← BokehSourceInterface._get_description k o;
            mret (<[k := [CText [Py.Lit d]]]> data_dict)
        end) acc lm).1 = Raise NotImplementedError.
Proof.
  intros Hk Hattr Hk1 Hk2. revert acc lm.
  induction keys as [|k0 keys IH]; intros acc lm Hparam; [by apply elem_of_nil in Hk|].
  cbn [for_each]. unfold mbind at 1, M_bind at 1.
  destruct (getattr o k0) as [v|] eqn:E0.
  - cbn. apply IH; [|set_solver].
    apply elem_of_cons in Hk as [->|]; [congruence|done].
  - unfold mbind at 1, M_bind at 1.
    destruct (decide (k0 = "callback_param")) as [->|Hn1].
    { destruct (description_param_ok o lm) as [d ->]; [set_solver|].
      cbn. apply IH; set_solver. }
    destruct (decide (k0 = "legend_label")) as [->|Hn2].
    { rewrite description_legend_label. cbn. apply IH; set_solver. }
    by rewrite description_no_rule.
Qed.

Lemma get_data_dict_no_rule `{BokehSourceInterface.SourceKeys} o lm
    (keys : list string) (k : string) :
  BokehSourceInterface._get_source_keys o = Ok keys →
  k ∈ keys → getattr o k = None →
  k ≠ "callback_param" → k ≠ "legend_label" →
  ("callback_param" ∈ keys → getattr o "callback_param" = None → resolves_param o) →
  (BokehSourceInterface._get_data_dict o lm).1 = Raise NotImplementedError.
Proof.
  intros Hkeys. unfold BokehSourceInterface._get_data_dict.
  unfold mbind at 1, M_bind at 1, lift. rewrite Hkeys.
  apply data_dict_loop_no_rule.
Qed.

End Description.

Section DescriptionClaims.

Context {R : Type}.

(** C3, as the code has it.  For the key [callback_param] the description
    is the period of a timer callback and the subscribed topic of a
    subscription callback.  A key other than [callback_param] and
    [legend_label] has no rule: [_get_description] raises
    [NotImplementedError] for it, and so does [_get_data_dict] for an
    object that lacks such a source key as an attribute. *)
Theorem description_rules (o : pyobj) (lm : LegendManager.t R) :
  (∀ period_ns, cls o = TimerCallback period_ns →
     BokehSourceInterface._get_description "callback_param" o lm
     = (Ok ("period_ns = " +:+ pretty period_ns), lm))
  ∧ (∀ topic, cls o = SubscriptionCallback topic →
     BokehSourceInterface._get_description "callback_param" o lm
     = (Ok ("subscribe_topic_name = " +:+ topic), lm))
  ∧ (∀ key, key ≠ "callback_param" → key ≠ "legend_label" →
     BokehSourceInterface._get_description key o lm
     = (Raise NotImplementedError, lm))
  ∧ (∀ (source : BokehSourceInterface.SourceKeys) (keys : list string) (k : string),
     BokehSourceInterface._get_source_keys o = Ok keys →
     k ∈ keys → getattr o k = None →
     k ≠ "callback_param" → k ≠ "legend_label" →
     ("callback_param" ∈ keys → getattr o "callback_param" = None →
      resolves_param o) →
     (BokehSourceInterface._get_data_dict o lm).1 = Raise NotImplementedError).
Proof.
  split_and!.
  - intros p Hp. unfold BokehSourceInterface._get_description. cbn. by rewrite Hp.
  - intros t Ht. unfold BokehSourceInterface._get_description. cbn. by rewrite Ht.
  - intros key. apply description_no_rule.
  - intros source keys k. apply get_data_dict_no_rule.
Qed.

End DescriptionClaims.

Lemma description_rules_witness :
  BokehSourceInterface._get_description "callback_param" timer_cb
    (LegendManager.init (GlyphRenderer := nat))
  = (Ok "period_ns = 100000000", LegendManager.init)
  ∧ BokehSourceInterface._get_description "callback_param" subscription_cb
      (LegendManager.init (GlyphRenderer := nat))
    = (Ok "subscribe_topic_name = /chatter", LegendManager.init)
  ∧ BokehSourceInterface._get_description "topic_name" timer_cb
      (LegendManager.init (GlyphRenderer := nat))
    = (Raise NotImplementedError, LegendManager.init)
  ∧ (BokehSourceInterface._get_data_dict (H := LineSource.source_keys)
       (PyObj 20 Publisher ∅) (LegendManager.init (GlyphRenderer := nat))).1
    = Raise NotImplementedError.
Proof.
  split_and!.
  - exact (proj1 (description_rules timer_cb LegendManager.init) _ eq_refl).
  - exact (proj1 (proj2 (description_rules subscription_cb LegendManager.init))
             _ eq_refl).
  - apply (proj1 (proj2 (proj2 (description_rules timer_cb LegendManager.init))));
      discriminate.
  - apply (proj2 (proj2 (proj2
             (description_rules (PyObj 20 Publisher ∅) LegendManager.init)))
             LineSource.source_keys
             ["legend_label"; "node_name"; "topic_name"] "node_name");
      [reflexivity|apply list_elem_of_further, list_elem_of_here|reflexivity
      |discriminate|discriminate|].
    intros Hin. exfalso. revert Hin. rewrite !elem_of_cons, elem_of_nil.
    intros [?|[?|[?|[]]]]; discriminate.
Defined.

(** No path of [_get_description] raises the [UnsupportedKeyError] of the
    design document: a key without a rule gives [NotImplementedError], and
    [callback_param] on a callback that is neither a timer nor a
    subscription callback leaves [description] unassigned. *)
Lemma description_rules_counterexample :
  (BokehSourceInterface._get_description "topic_name" timer_cb
     (LegendManager.init (GlyphRenderer := nat))).1 = Raise NotImplementedError
  ∧ (BokehSourceInterface._get_description "topic_name" timer_cb
       (LegendManager.init (GlyphRenderer := nat))).1 ≠ Raise UnsupportedKeyError
  ∧ (BokehSourceInterface._get_description "callback_param" service_cb
       (LegendManager.init (GlyphRenderer := nat))).1
    = Raise (UnboundLocalError "description")
  ∧ (BokehSourceInterface._get_description "callback_param" service_cb
       (LegendManager.init (GlyphRenderer := nat))).1 ≠ Raise UnsupportedKeyError
  ∧ (BokehSourceInterface._get_data_dict (H := LineSource.source_keys) service_cb
       (LegendManager.init (GlyphRenderer := nat))).1
    = Raise (UnboundLocalError "description").
Proof. vm_compute. split_and!; done. Qed.

(** ** LineSource *)

Section LineSourceFacts.

Context {R : Type}.
Implicit Types (lm : LegendManager.t R) (o : pyobj).
Implicit Types (self : LineSource.t) (recs : LineSource.RecordsInterface).

Lemma omap_id_length {A} (l : list (option A)) :
  length (omap id l) ≤ length l.
Proof. induction l as [|[x|] l IH]; cbn; lia. Qed.

Lemma ensure_not_none_missing (l : list (option Py.num)) :
  None ∈ l → LineSource.ensure_not_none l = Raise AssertionError.
Proof.
  intros Hin. unfold LineSource.ensure_not_none.
  enough (length (omap id l) < length l) as Hlt
    by (destruct (Nat.eqb_spec (length l) (length (omap id l))); [lia|done]).
  induction l as [|[x|] l IH]; cbn.
  - by apply elem_of_nil in Hin.
  - apply elem_of_cons in Hin as [|Hin]; [done|]. specialize (IH Hin). lia.
  - pose proof (omap_id_length l). lia.
Qed.

Lemma ensure_not_none_present (l : list Py.num) :
  LineSource.ensure_not_none (Some <$> l) = Ok l.
Proof.
  unfold LineSource.ensure_not_none.
  assert (omap id (Some <$> l) = l) as ->
    by (induction l as [|x l IH]; cbn; [done|by f_equal]).
  by rewrite length_fmap, Nat.eqb_refl.
Qed.

Lemma get_x_y_missing self recs (ts_column value_column : string) :
  LineSource.columns recs !! 0 = Some ts_column →
  LineSource.columns recs !! 1 = Some value_column →
  None ∈ LineSource.get_column_series recs ts_column
  ∨ None ∈ LineSource.get_column_series recs value_column →
  LineSource._get_x_y self recs = Raise AssertionError.
Proof.
  intros H0 H1 Hnone. unfold LineSource._get_x_y, LineSource.item.
  rewrite H0, H1. cbn [mbind result_bind].
  destruct (LineSource.ensure_not_none (LineSource.get_column_series recs ts_column))
    as [tss|e] eqn:Ets.
  - destruct Hnone as [Hn|Hn].
    + rewrite ensure_not_none_missing in Ets; done.
    + cbn. by rewrite ensure_not_none_missing.
  - cbn. unfold LineSource.ensure_not_none in Ets. by case_match; simplify_eq.
Qed.

Lemma get_x_y_values self recs (ts_column value_column : string)
    (timestamps values : list Py.num) :
  LineSource.columns recs !! 0 = Some ts_column →
  LineSource.columns recs !! 1 = Some value_column →
  LineSource.get_column_series recs ts_column = Some <$> timestamps →
  LineSource.get_column_series recs value_column = Some <$> values →
  LineSource._get_x_y self recs =
    let y_item :=
      if LineSource.is_time_column value_column
      then (fun v => Py.Float (Py.mul_float v Py.f_1em6)) <$> values
      else values in
    if String.eqb (LineSource._xaxis_type self) "system_time" then
      Ok ((fun ts => Py.Float (Py.mul_float (Py.sub ts (LineSource._frame_min self)) Py.f_1em9))
            <$> timestamps, y_item)
    else if String.eqb (LineSource._xaxis_type self) "index" then
      Ok ((fun i => Py.Int (Z.of_nat i)) <$> seq 0 (length values), y_item)
    else if String.eqb (LineSource._xaxis_type self) "sim_time" then
      Ok (timestamps, y_item)
    else Raise (UnboundLocalError "x_item").
Proof.
  intros H0 H1 Hts Hvs. unfold LineSource._get_x_y, LineSource.item.
  rewrite H0, H1. cbn [mbind result_bind]. rewrite Hts, Hvs.
  rewrite !ensure_not_none_present. cbn [mbind result_bind].
  rewrite range_unit.
  assert (length (if LineSource.is_time_column value_column
                  then (fun v => Py.Float (Py.mul_float v Py.f_1em6)) <$> values
                  else values) = length values) as ->
    by (destruct (LineSource.is_time_column value_column); [apply length_fmap|done]).
  repeat case_match; done.
Qed.

End LineSourceFacts.

Section LineSourceGenerate.

Context {R : Type}.
Implicit Types (lm : LegendManager.t R) (o : pyobj).
Implicit Types (self : LineSource.t) (recs : LineSource.RecordsInterface).

Lemma generate_unfold self o recs lm :
  LineSource.generate self o recs lm =
  match BokehSourceInterface._get_source_keys (SourceKeys := LineSource.source_keys) o with
  | Raise e => (Raise e, lm)
  | Ok keys =>
      match BokehSourceInterface._get_data_dict (H := LineSource.source_keys) o lm with
      | (Raise e, lm1) => (Raise e, lm1)
      | (Ok data_dict, lm1) =>
          match LineSource._get_x_y self recs with
          | Raise e => (Raise e, lm1)
          | Ok (x_item, y_item) =>
              (Ok (fold_left
                     (fun source '(x, y) =>
                        stream source
                          (dict_merge
                             (list_to_map [("x", [CNum x]); ("y", [CNum y])])
                             data_dict))
                     (zip x_item y_item) (empty_source (["x"; "y"] ++ keys))),
               lm1)
          end
      end
  end.
Proof.
  unfold LineSource.generate, mbind, M_bind, lift.
  destruct (BokehSourceInterface._get_source_keys o); [|done].
  destruct (BokehSourceInterface._get_data_dict o lm) as [[d|e] lm1]; [|done].
  by destruct (LineSource._get_x_y self recs) as [[x y]|e].
Qed.

Lemma generate_missing self o recs lm (ts_column value_column : string) :
  LineSource.columns recs !! 0 = Some ts_column →
  LineSource.columns recs !! 1 = Some value_column →
  None ∈ LineSource.get_column_series recs ts_column
  ∨ None ∈ LineSource.get_column_series recs value_column →
  is_ok (LineSource.generate self o recs lm).1 = false
  ∧ ∀ d lm',
      BokehSourceInterface._get_data_dict (H := LineSource.source_keys) o lm = (Ok d, lm') →
      LineSource.generate self o recs lm = (Raise AssertionError, lm').
Proof.
  intros H0 H1 Hnone.
  pose proof (get_x_y_missing self recs _ _ H0 H1 Hnone) as Hxy.
  rewrite generate_unfold, Hxy.
  destruct (BokehSourceInterface._get_source_keys o) as [keys|e] eqn:Ekeys.
  - destruct (BokehSourceInterface._get_data_dict o lm) as [[d|e] lm1] eqn:Ed.
    + split; [done|]. by intros ? ? [= <- <-].
    + split; [done|]. intros ? ? [=].
  - split; [done|]. intros d lm' Hd. exfalso.
    unfold BokehSourceInterface._get_data_dict in Hd.
    unfold mbind at 1, M_bind at 1, lift at 1 in Hd.
    rewrite Ekeys in Hd. done.
Qed.

End LineSourceGenerate.

(** ** CallbackSchedRectSource *)

Section RectSourceFacts.

Context {R Clip : Type}.
Variable to_dataframe : pyobj → Clip → list (list Py.num).
Implicit Types (lm : LegendManager.t R) (o : pyobj).
Implicit Types (self : CallbackSchedRectSource.t (Clip := Clip)).




End RectSourceFacts.

Section LineSourceClaims.

Context {R : Type}.

(** C2, as the code has it.  When the time stamp column or the value column
    holds a [None], [_get_x_y] fails its assertion: it raises
    [AssertionError].  [generate] then returns no source at all; the
    exception it raises is that [AssertionError] whenever the hover data of
    the target could be built. *)
Theorem generate_fails_on_missing_value
    (self : LineSource.t) (o : pyobj) (recs : LineSource.RecordsInterface)
    (lm : LegendManager.t R) (ts_column value_column : string)
    (Hts : LineSource.columns recs !! 0 = Some ts_column)
    (Hvalue : LineSource.columns recs !! 1 = Some value_column)
    (Hnone : None ∈ LineSource.get_column_series recs ts_column
             ∨ None ∈ LineSource.get_column_series recs value_column) :
  LineSource._get_x_y self recs = Raise AssertionError
  ∧ is_ok (LineSource.generate self o recs lm).1 = false
  ∧ ∀ data_dict lm',
      BokehSourceInterface._get_data_dict (H := LineSource.source_keys) o lm
        = (Ok data_dict, lm') →
      LineSource.generate self o recs lm = (Raise AssertionError, lm').
Proof.
  split; [by eapply get_x_y_missing|by eapply generate_missing].
Qed.

(** C5. On a table whose first two columns hold no [None], the x values
    are: in [system_time] mode, each time stamp minus the frame minimum,
    times [10**(-9)]; in [index] mode, the integers from 0 to one less than
    the number of values; in [sim_time] mode, the time stamps themselves. *)
Theorem line_source_x_axis
    (self : LineSource.t) (recs : LineSource.RecordsInterface)
    (ts_column value_column : string) (timestamps values : list Py.num)
    (Hts : LineSource.columns recs !! 0 = Some ts_column)
    (Hvalue : LineSource.columns recs !! 1 = Some value_column)
    (Htimestamps : LineSource.get_column_series recs ts_column = Some <$> timestamps)
    (Hvalues : LineSource.get_column_series recs value_column = Some <$> values) :
  let y_item :=
    if LineSource.is_time_column value_column
    then (fun v => Py.Float (Py.mul_float v Py.f_1em6)) <$> values
    else values in
  (LineSource._xaxis_type self = "system_time" →
   LineSource._get_x_y self recs
   = Ok ((fun ts => Py.Float (Py.mul_float (Py.sub ts (LineSource._frame_min self))
                                 Py.f_1em9)) <$> timestamps,
         y_item))
  ∧ (LineSource._xaxis_type self = "index" →
     LineSource._get_x_y self recs
     = Ok ((fun i => Py.Int (Z.of_nat i)) <$> seq 0 (length values), y_item))
  ∧ (LineSource._xaxis_type self = "sim_time" →
     LineSource._get_x_y self recs = Ok (timestamps, y_item)).
Proof.
  intros y_item.
  rewrite (get_x_y_values self recs _ _ _ _ Hts Hvalue Htimestamps Hvalues).
  fold y_item. split_and!; by intros ->.
Qed.

End LineSourceClaims.

Lemma generate_fails_on_missing_value_witness :
  let self := LineSource.Build (Py.Int 10) "system_time" in
  LineSource.columns records_with_none !! 0 = Some "callback_start_timestamp"
  ∧ LineSource.columns records_with_none !! 1 = Some "latency"
  ∧ None ∈ LineSource.get_column_series records_with_none "latency"
  ∧ LineSource._get_x_y self records_with_none = Raise AssertionError
  ∧ is_ok (LineSource.generate self timer_cb records_with_none
             (LegendManager.init (GlyphRenderer := nat))).1 = false.
Proof.
  intros self.
  assert (None ∈ LineSource.get_column_series records_with_none "latency") as Hnone
    by apply list_elem_of_further, list_elem_of_here.
  destruct (generate_fails_on_missing_value (R := nat) self timer_cb
              records_with_none LegendManager.init
              "callback_start_timestamp" "latency" eq_refl eq_refl (or_intror Hnone))
    as (Hxy & Hgen & _).
  split_and!; [reflexivity|reflexivity|exact Hnone|exact Hxy|exact Hgen].
Defined.

(** A table with a [None] in its value column: the call raises
    [AssertionError], which is not the [DataIntegrityError] of the design
    document. *)
Lemma generate_fails_on_missing_value_counterexample :
  (LineSource.generate (LineSource.Build (Py.Int 10) "system_time") timer_cb
     records_with_none (LegendManager.init (GlyphRenderer := nat))).1
  = Raise AssertionError
  ∧ (LineSource.generate (LineSource.Build (Py.Int 10) "system_time") timer_cb
       records_with_none (LegendManager.init (GlyphRenderer := nat))).1
    ≠ Raise DataIntegrityError.
Proof. vm_compute. split; done. Qed.

Lemma line_source_x_axis_witness :
  let y_item := [Py.Float Py.f_one; Py.Float (Py.float_of_int 2)] in
  LineSource._get_x_y (LineSource.Build (Py.Int 10) "system_time") latency_records
  = Ok ([Py.Float Py.f_zero; Py.Float Py.f_one], y_item)
  ∧ LineSource._get_x_y (LineSource.Build (Py.Int 10) "index") latency_records
    = Ok ([Py.Int 0; Py.Int 1], y_item)
  ∧ LineSource._get_x_y (LineSource.Build (Py.Int 10) "sim_time") latency_records
    = Ok ([Py.Int 10; Py.Int 1000000010], y_item).
Proof.
  pose proof (fun self =>
    line_source_x_axis self latency_records
      "callback_start_timestamp" "latency"
      [Py.Int 10; Py.Int 1000000010] [Py.Int 1000000; Py.Int 2000000]
      eq_refl eq_refl eq_refl eq_refl) as H.
  split_and!.
  - rewrite (proj1 (H (LineSource.Build (Py.Int 10) "system_time")) eq_refl).
    vm_compute. reflexivity.
  - rewrite (proj1 (proj2 (H (LineSource.Build (Py.Int 10) "index"))) eq_refl).
    vm_compute. reflexivity.
  - rewrite (proj2 (proj2 (H (LineSource.Build (Py.Int 10) "sim_time"))) eq_refl).
    vm_compute. reflexivity.
Defined.

Section LatencyClaims.

Context {R Clip : Type}.


End LatencyClaims.


(** ** RectValues *)


(** A span given in order, one given backwards, and an empty one. *)
Example rect_values_examples :
  let half := Py.fdiv (Py.float_of_int 1) (Py.float_of_int 2) in
  let forwards := RectValues.new (Py.Int 1) (Py.Int 5)
                    (Py.Float (Py.fsub Py.f_zero half)) (Py.Float half) in
  let backwards := RectValues.new (Py.Int 5) (Py.Int 1)
                     (Py.Float half) (Py.Float (Py.fsub Py.f_zero half)) in
  let empty := RectValues.new (Py.Int 7) (Py.Int 7) (Py.Float half) (Py.Float half) in
  RectValues.x forwards = Py.float_of_int 3
  ∧ RectValues.y forwards = Py.f_zero
  ∧ RectValues.width forwards = Py.Int 4
  ∧ RectValues.height forwards = Py.Float Py.f_one
  ∧ RectValues.x backwards = Py.float_of_int 3
  ∧ RectValues.y backwards = Py.f_zero
  ∧ RectValues.width backwards = Py.Int 4
  ∧ RectValues.height backwards = Py.Float Py.f_one
  ∧ RectValues.x empty = Py.float_of_int 7
  ∧ RectValues.y empty = half
  ∧ RectValues.width empty = Py.Int 0
  ∧ RectValues.height empty = Py.Float Py.f_zero.
Proof. vm_compute. done. Qed.

(** ** CallbackSchedulingPlot *)

Section OrderedUnion.

Context {A : Type} `{EqDecision A}.
Implicit Types (l acc : list A) (x : A).

Lemma ordered_union_filter (P : A → Prop) `{∀ x, Decision (P x)} l :
  ordered_union (filter P l) = filter P (ordered_union l).
Proof.
  induction l as [|x l IH]; [done|].
  cbn [ordered_union]. rewrite !filter_cons.
  destruct (decide (P x)) as [HP|HP].
  - cbn [ordered_union]. rewrite IH. f_equal.
    rewrite !list_filter_filter. apply list_filter_iff. naive_solver.
  - rewrite IH, list_filter_filter. apply list_filter_iff.
    intros y. naive_solver.
Qed.




(** [UniqueList.append], repeated, computes the ordered union. *)
Lemma unique_list_appends l acc :
  fold_left CallbackSchedulingPlot.UniqueList.append l acc
  = acc ++ ordered_union (filter (.∉ acc) l).
Proof.
  revert acc. induction l as [|x l IH]; intros acc.
  - cbn. by rewrite app_nil_r.
  - cbn [fold_left]. rewrite IH, filter_cons.
    unfold CallbackSchedulingPlot.UniqueList.append.
    case_bool_decide as Hx.
    + by rewrite decide_False by (by intros ?).
    + rewrite decide_True by done. cbn [ordered_union].
      rewrite <- app_assoc. cbn [app]. do 2 f_equal.
      rewrite <- ordered_union_filter, list_filter_filter.
      f_equal. apply list_filter_iff. intros y.
      rewrite not_elem_of_app, list_elem_of_singleton. naive_solver.
Qed.

End OrderedUnion.

Section Plot.

Context {CallbackGroup : Type} `{EqDecision CallbackGroup} {Figure : Type}.
Variable callback_scheduling :
  CallbackSchedulingPlot.callback_scheduling_call (CallbackGroup := CallbackGroup) → Figure.

Implicit Types (comms : list (CallbackSchedulingPlot.Communication (CallbackGroup := CallbackGroup))).

Lemma publish_loop comms (acc : list CallbackGroup) :
  fold_left
    (fun acc comm =>
       fold_left CallbackSchedulingPlot.UniqueList.append
         (CallbackSchedulingPlot.or_empty
            (CallbackSchedulingPlot.callback_groups
               (CallbackSchedulingPlot.publish_node comm))) acc)
    comms acc
  = fold_left CallbackSchedulingPlot.UniqueList.append
      (concat (publish_groups <$> comms)) acc.
Proof.
  revert acc. induction comms as [|c comms IH]; intros acc; [done|].
  cbn [fold_left fmap list_fmap concat]. by rewrite IH, fold_left_app.
Qed.

Lemma path_groups comms final :
  last comms = Some final →
  let all := concat (publish_groups <$> comms) ++ subscribe_groups final in
  CallbackSchedulingPlot._get_callback_groups (CallbackSchedulingPlot.Path comms)
  = if decide (all = [])
    then Raise (InvalidArgumentError "target.callback_groups is None")
    else Ok (ordered_union all).
Proof.
  intros Hlast all. cbn [CallbackSchedulingPlot._get_callback_groups].
  rewrite Hlast, publish_loop, <- fold_left_app.
  fold (subscribe_groups final). fold all.
  rewrite unique_list_appends. unfold CallbackSchedulingPlot.UniqueList.new.
  cbn [app].
  assert (filter (.∉ []) all = all) as ->.
  { clear. induction all as [|x all IH]; [done|].
    rewrite filter_cons_True by apply not_elem_of_nil. by rewrite IH. }
  destruct all as [|x all']; [done|]. by rewrite decide_False.
Qed.

End Plot.

Section PlotClaims.

Context {CallbackGroup : Type} `{EqDecision CallbackGroup} {Figure : Type}.
Variable callback_scheduling :
  CallbackSchedulingPlot.callback_scheduling_call (CallbackGroup := CallbackGroup) → Figure.

Implicit Types (comms : list (CallbackSchedulingPlot.Communication (CallbackGroup := CallbackGroup))).

(** A path without a communication has no last one. *)
Lemma path_without_hops :
  CallbackSchedulingPlot._get_callback_groups
    (CallbackSchedulingPlot.Path (CallbackGroup := CallbackGroup) [])
  = Raise IndexError.
Proof. reflexivity. Qed.


(** When both options are supported, [figure] makes the one call. *)
Lemma figure_delegates (self : CallbackSchedulingPlot.t)
    (xaxis_type : string) (ywheel_zoom full_legends : bool)
    (coloring_rule : string) (lstrip_s rstrip_s : Py.num) :
  xaxis_type ∈ ["system_time"; "sim_time"] →
  coloring_rule ∈ ["callback"; "callback_group"; "node"] →
  ∃ call,
    CallbackSchedulingPlot.figure callback_scheduling self xaxis_type ywheel_zoom
      full_legends coloring_rule lstrip_s rstrip_s
    = ([call], Ok (callback_scheduling call))
    ∧ CallbackSchedulingPlot.arg_callback_groups call
      = CallbackSchedulingPlot._callback_groups self.
Proof.
  intros Hx%str_in_spec Hc%str_in_spec.
  unfold CallbackSchedulingPlot.figure, CallbackSchedulingPlot._validate_xaxis_type.
  rewrite Hx, Hc. cbn [negb]. eexists. split; reflexivity.
Qed.

(** C8. When [xaxis_type] is neither [system_time] nor [sim_time], or
    [coloring_rule] is none of [callback], [callback_group] and [node],
    [figure] raises [UnsupportedTypeError] without having called the
    visualize library.  The message names the value that was refused, the
    axis type first, and the values that are supported. *)
Theorem figure_rejects_unsupported_options (self : CallbackSchedulingPlot.t)
    (xaxis_type : string) (ywheel_zoom full_legends : bool)
    (coloring_rule : string) (lstrip_s rstrip_s : Py.num)
    (Hbad : xaxis_type ∉ ["system_time"; "sim_time"]
            ∨ coloring_rule ∉ ["callback"; "callback_group"; "node"]) :
  ∃ msg,
    CallbackSchedulingPlot.figure callback_scheduling self xaxis_type ywheel_zoom
      full_legends coloring_rule lstrip_s rstrip_s
    = ([], Raise (UnsupportedTypeError msg))
    ∧ (xaxis_type ∉ ["system_time"; "sim_time"] →
       msg = "Unsupported xaxis_type. xaxis_type = " +:+ xaxis_type
             +:+ ". supported xaxis_type: [system_time/sim_time]"
       ∧ Py.contains xaxis_type msg = true
       ∧ Py.contains "[system_time/sim_time]" msg = true)
    ∧ (xaxis_type ∈ ["system_time"; "sim_time"] →
       msg = "Unsupported coloring_rule. coloring_rule = " +:+ coloring_rule
             +:+ ". supported coloring_rule: [callback/callback_group/node]"
       ∧ Py.contains coloring_rule msg = true
       ∧ Py.contains "[callback/callback_group/node]" msg = true).
Proof.
  unfold CallbackSchedulingPlot.figure, CallbackSchedulingPlot._validate_xaxis_type.
  destruct (Py.str_in xaxis_type ["system_time"; "sim_time"]) eqn:Ex.
  - apply str_in_spec in Ex.
    destruct (Py.str_in coloring_rule ["callback"; "callback_group"; "node"]) eqn:Ec.
    { apply str_in_spec in Ec. by destruct Hbad. }
    cbn [negb]. eexists. split; [reflexivity|]. split; [done|].
    intros _. split_and!; [done|apply contains_middle|].
    by apply contains_app_r, contains_app_r.
  - assert (xaxis_type ∉ ["system_time"; "sim_time"]) as Hx.
    { intros Hin%str_in_spec. congruence. }
    cbn [negb]. eexists. split; [reflexivity|]. split; [|done].
    intros _. split_and!; [done|apply contains_middle|].
    by apply contains_app_r, contains_app_r.
Qed.

End PlotClaims.

(** Nodes that share no callback group are no error: the groups of both
    are returned. *)
Example path_of_disjoint_nodes :
  CallbackSchedulingPlot._get_callback_groups (CallbackSchedulingPlot.Path disjoint_hop)
  = Ok ["cbg_a"; "cbg_b"].
Proof. vm_compute. reflexivity. Qed.


Lemma figure_rejects_unsupported_options_witness :
  ("bogus" ∉ ["system_time"; "sim_time"])
  ∧ (∃ msg,
      CallbackSchedulingPlot.figure (CallbackGroup := string)
        (fun call => call)
        (CallbackSchedulingPlot.Build
           (CallbackSchedulingPlot.Sequence ["cbg_a"]) ["cbg_a"])
        "bogus" true false "callback" (Py.Int 0) (Py.Int 0)
      = ([], Raise (UnsupportedTypeError msg))
      ∧ msg = "Unsupported xaxis_type. xaxis_type = bogus. supported xaxis_type: [system_time/sim_time]").
Proof.
  assert ("bogus" ∉ ["system_time"; "sim_time"]) as Hbad.
  { rewrite !elem_of_cons, elem_of_nil. intros [?|[?|[]]]; discriminate. }
  split; [exact Hbad|].
  destruct (figure_rejects_unsupported_options (CallbackGroup := string)
              (fun call => call)
              (CallbackSchedulingPlot.Build
                 (CallbackSchedulingPlot.Sequence ["cbg_a"]) ["cbg_a"])
              "bogus" true false "callback" (Py.Int 0) (Py.Int 0)
              (or_introl Hbad)) as (msg & Hfig & Hx & _).
  exists msg. split; [exact Hfig|]. exact (proj1 (Hx Hbad)).
Defined.

(** * Further properties *)

(** ** LegendManager: labels *)

Section MoreLabels.

Context {R : Type}.
Implicit Types (lm : LegendManager.t R) (o : pyobj) (os : list pyobj).

Lemma get_label_same_view lm1 lm2 o :
  LegendManager._legend lm1 = LegendManager._legend lm2 →
  LegendManager._legend_count_map lm1 = LegendManager._legend_count_map lm2 →
  (LegendManager.get_label lm1 o).1 = (LegendManager.get_label lm2 o).1
  ∧ LegendManager._legend (LegendManager.get_label lm1 o).2
    = LegendManager._legend (LegendManager.get_label lm2 o).2
  ∧ LegendManager._legend_count_map (LegendManager.get_label lm1 o).2
    = LegendManager._legend_count_map (LegendManager.get_label lm2 o).2.
Proof.
  intros Hl Hc. unfold LegendManager.get_label, LegendManager.count.
  rewrite Hl, Hc. by destruct (LegendManager._legend lm2 !! oid o).
Qed.

Lemma get_label_items lm o :
  LegendManager._legend_items (LegendManager.get_label lm o).2
  = LegendManager._legend_items lm.
Proof.
  unfold LegendManager.get_label.
  by destruct (LegendManager._legend lm !! oid o).
Qed.

Lemma registered_from (objs : list (pyobj * R)) lm1 lm2 :
  LegendManager._legend lm1 = LegendManager._legend lm2 →
  LegendManager._legend_count_map lm1 = LegendManager._legend_count_map lm2 →
  let lm' := fold_left (fun lm '(o, r) => LegendManager.add_legend lm o r) objs lm1 in
  LegendManager._legend_items lm'
  = LegendManager._legend_items lm1
    ++ zip_with (fun label r => (label, [r]))
         (LegendManager.get_labels lm2 objs.*1).1 objs.*2
  ∧ LegendManager._legend lm'
    = LegendManager._legend (LegendManager.get_labels lm2 objs.*1).2
  ∧ LegendManager._legend_count_map lm'
    = LegendManager._legend_count_map (LegendManager.get_labels lm2 objs.*1).2.
Proof.
  revert lm1 lm2. induction objs as [|[o r] objs IH]; intros lm1 lm2 Hl Hc.
  - cbn. by rewrite app_nil_r.
  - cbn [fold_left fmap list_fmap fst snd LegendManager.get_labels].
    destruct (add_legend_labels lm1 o r) as (A1 & A2 & A3).
    destruct (get_label_same_view lm1 lm2 o Hl Hc) as (V1 & V2 & V3).
    destruct (LegendManager.get_label lm2 o) as [l lm2'] eqn:E2. cbn [fst snd] in *.
    specialize (IH (LegendManager.add_legend lm1 o r) lm2'
                  ltac:(congruence) ltac:(congruence)).
    cbv zeta in IH. destruct IH as (I1 & I2 & I3).
    destruct (LegendManager.get_labels lm2' objs.*1) as [ls lm2''] eqn:E3.
    cbn [fst snd zip_with] in *.
    rewrite I1, A3, V1, <- app_assoc. done.
Qed.

(** X1. Registering legends one after the other appends one entry per
    call, a repeated object included: the entries are, in order, the label
    [get_label] gives each object paired with the renderer of the call, and
    the labels and counters end as a sequence of [get_label] calls leaves
    them. *)
Theorem registered_entries (objs : list (pyobj * R)) :
  let lm := LegendManager.registered objs in
  let labels := (LegendManager.get_labels (LegendManager.init (GlyphRenderer := R)) objs.*1).1 in
  LegendManager._legend_items lm
    = zip_with (fun label r => (label, [r])) labels objs.*2
  ∧ length (LegendManager._legend_items lm) = length objs
  ∧ LegendManager._legend lm
    = LegendManager._legend
        (LegendManager.get_labels (LegendManager.init (GlyphRenderer := R)) objs.*1).2
  ∧ LegendManager._legend_count_map lm
    = LegendManager._legend_count_map
        (LegendManager.get_labels (LegendManager.init (GlyphRenderer := R)) objs.*1).2.
Proof.
  intros lm labels.
  destruct (registered_from objs LegendManager.init LegendManager.init eq_refl eq_refl)
    as (H1 & H2 & H3).
  fold (LegendManager.registered objs) in H1, H2, H3. fold lm in H1, H2, H3.
  split_and!; [done| |done|done].
  rewrite H1. cbn [LegendManager.init LegendManager._legend_items app].
  rewrite length_zip_with, get_labels_length, !length_fmap. lia.
Qed.

Lemma get_label_hit lm o (l : string) :
  LegendManager._legend lm !! oid o = Some l →
  LegendManager.get_label lm o = (l, lm).
Proof. intros H. unfold LegendManager.get_label. by rewrite H. Qed.

Lemma get_label_miss lm o :
  LegendManager._legend lm !! oid o = None →
  LegendManager.get_label lm o
  = (Py.lower (type_name o) +:+ pretty (LegendManager.count lm (type_name o)),
     {| LegendManager._legend_count_map :=
          <[type_name o := S (LegendManager.count lm (type_name o))]>
            (LegendManager._legend_count_map lm);
        LegendManager._legend_items := LegendManager._legend_items lm;
        LegendManager._legend :=
          <[oid o := Py.lower (type_name o)
                     +:+ pretty (LegendManager.count lm (type_name o))]>
            (LegendManager._legend lm) |}).
Proof. intros H. unfold LegendManager.get_label. by rewrite H. Qed.

(** X2. Once [get_label] has given an object its label, asking again
    changes nothing in the manager, and whatever objects are labelled
    afterwards the object keeps that label. *)
Theorem get_label_is_stable lm o os :
  let label := (LegendManager.get_label lm o).1 in
  let lm1 := (LegendManager.get_label lm o).2 in
  LegendManager.get_label lm1 o = (label, lm1)
  ∧ (LegendManager.get_label (LegendManager.get_labels lm1 os).2 o).1 = label
  ∧ (LegendManager.get_label (LegendManager.get_labels lm1 os).2 o).2
    = (LegendManager.get_labels lm1 os).2.
Proof.
  intros label lm1.
  pose proof (get_label_cached lm o) as Hc. fold lm1 label in Hc.
  pose proof (get_labels_keeps os lm1 _ _ Hc) as Hk.
  by rewrite (get_label_hit _ _ _ Hc), (get_label_hit _ _ _ Hk).
Qed.

(** X3. Labels of different classes can coincide: the first objects of two
    classes whose names differ only in the case of their letters get the
    same label. *)
Theorem get_label_collides_across_classes (o1 o2 : pyobj)
    (Hid : oid o1 ≠ oid o2)
    (Hclass : type_name o1 ≠ type_name o2)
    (Hlower : Py.lower (type_name o1) = Py.lower (type_name o2)) :
  (LegendManager.get_labels (LegendManager.init (GlyphRenderer := R)) [o1; o2]).1
  = [Py.lower (type_name o1) +:+ "0"; Py.lower (type_name o1) +:+ "0"].
Proof.
  cbn [LegendManager.get_labels].
  rewrite (get_label_miss LegendManager.init o1) by apply lookup_empty.
  rewrite get_label_miss
    by (cbn [LegendManager._legend LegendManager.init];
        by rewrite lookup_insert_ne).
  cbn [fst]. unfold LegendManager.count.
  cbn [LegendManager._legend_count_map LegendManager.init].
  rewrite lookup_insert_ne by done. rewrite lookup_empty.
  cbn [default]. by rewrite Hlower.
Qed.

End MoreLabels.

Lemma get_label_collides_across_classes_witness :
  let o1 := PyObj 1 (OtherClass "Node") ∅ in
  let o2 := PyObj 2 (OtherClass "node") ∅ in
  (LegendManager.get_labels (LegendManager.init (GlyphRenderer := nat)) [o1; o2]).1
  = ["node0"; "node0"].
Proof.
  intros o1 o2.
  rewrite (get_label_collides_across_classes (R := nat) o1 o2);
    [reflexivity|discriminate|discriminate|reflexivity].
Defined.

Section GloballyUnique.

Context {R : Type}.








End GloballyUnique.


(** ** LegendManager: drawing *)

Section MoreDrawLegends.

Context {R : Type}.
Implicit Types (lm : LegendManager.t R) (figure : LegendManager.Figure R).

(** X5. Without [full_legends] and for a [max_legends] that is not
    negative, what is drawn is a prefix of the registered entries, made of
    whole pages: at least [min(count, max_legends)] entries and fewer than
    [max_legends + 10]; exactly [min(count, max_legends)] when
    [max_legends] is a multiple of ten.  The warning is logged at most
    once. *)
Theorem draw_legends_page_granular lm (max_legends : Z)
    (Hmax : (0 ≤ max_legends)%Z) :
  let items := LegendManager._legend_items lm in
  let '(figure', log) :=
    LegendManager.draw_legends lm LegendManager.empty_figure max_legends false in
  let drawn := LegendManager.emitted figure' in
  drawn `prefix_of` items
  ∧ (Z.of_nat (length drawn) < max_legends + 10)%Z
  ∧ (Z.of_nat (length items) `min` max_legends ≤ Z.of_nat (length drawn))%Z
  ∧ ((max_legends `mod` 10 = 0)%Z →
     Z.of_nat (length drawn) = (Z.of_nat (length items) `min` max_legends)%Z)
  ∧ length log ≤ 1.
Proof.
  intros items.
  pose proof (draw_legends_paged lm LegendManager.empty_figure max_legends) as H.
  cbv zeta in H.
  destruct (LegendManager.draw_legends lm LegendManager.empty_figure max_legends false)
    as [figure' log].
  destruct H as (Hdrawn & Hlog & _). fold items in Hdrawn, Hlog.
  cbn [LegendManager.emitted LegendManager.empty_figure LegendManager.layouts
       fmap list_fmap concat app] in Hdrawn.
  cbv zeta. change (concat (LegendManager.layouts figure').*1)
    with (LegendManager.emitted figure') in *.
  rewrite Hdrawn, length_take.
  pose proof (Z.div_mod (max_legends + 9) 10 ltac:(lia)).
  pose proof (Z.mod_pos_bound (max_legends + 9) 10 ltac:(lia)).
  assert (Z.of_nat (10 * pages_allowed max_legends) = 10 * ((max_legends + 9) `div` 10))%Z
    as Hpa by (unfold pages_allowed; lia).
  split_and!.
  - apply prefix_take.
  - lia.
  - lia.
  - intros Hmod.
    assert ((max_legends + 9) `div` 10 = max_legends `div` 10)%Z as Hd.
    { pose proof (Z.div_mod max_legends 10 ltac:(lia)).
      symmetry. apply (Z.div_unique (max_legends + 9) 10 _ 9); lia. }
    pose proof (Z.div_mod max_legends 10 ltac:(lia)). lia.
  - rewrite Hlog. case_bool_decide; cbn; lia.
Qed.

(** X6. With [full_legends] the loop runs one index past the entries, so
    the figure receives the pages of ten that hold the entries, none of them
    empty, and then one more legend that is empty; everything is placed on
    the right of what the figure already had. *)
Theorem draw_legends_full_adds_empty_legend lm figure (max_legends : Z) :
  let items := LegendManager._legend_items lm in
  let '(figure', log) := LegendManager.draw_legends lm figure max_legends true in
  ∃ pages,
    LegendManager.layouts figure'
      = LegendManager.layouts figure ++ pages ++ [([], "right")]
    ∧ length pages = (length items + 9) / 10
    ∧ concat pages.*1 = items
    ∧ Forall (fun p => 0 < length p.1 ≤ 10 ∧ p.2 = "right") pages
    ∧ log = [].
Proof.
  intros items. unfold LegendManager.draw_legends. fold items.
  rewrite range_pages, draw_pages_all.
  set (K := (length items + 9) / 10).
  pose proof (Nat.div_mod_eq (length items + 9) 10) as Hdm.
  pose proof (Nat.mod_upper_bound (length items + 9) 10 ltac:(lia)) as Hmod.
  fold K in Hdm.
  exists (page items <$> seq 0 K).
  cbn [LegendManager.layouts with_pages].
  split_and!.
  - rewrite seq_S, fmap_app. cbn [fmap list_fmap Nat.add]. do 3 f_equal.
    unfold page. f_equal. unfold Py.slice. rewrite drop_ge by lia. by destruct (_ - _).
  - by rewrite length_fmap, length_seq.
  - transitivity (take (10 * K) items); [|apply take_ge; lia].
    rewrite <- take_pages. f_equal. rewrite <- list_fmap_compose.
    by apply list_fmap_ext.
  - apply Forall_fmap, Forall_forall. intros k Hk%elem_of_seq.
    unfold compose, page, Py.slice. cbn [fst snd].
    split; [|done]. rewrite length_take, length_drop. lia.
  - done.
Qed.


End MoreDrawLegends.

Lemma draw_legends_page_granular_witness :
  let lm := LegendManager.registered (timer_callbacks 25) in
  let figure' :=
    (LegendManager.draw_legends lm LegendManager.empty_figure 15 false).1 in
  (0 ≤ 15)%Z
  ∧ LegendManager.emitted figure' `prefix_of` LegendManager._legend_items lm
  ∧ (Z.of_nat (length (LegendManager.emitted figure')) < 15 + 10)%Z.
Proof.
  intros lm figure'.
  pose proof (draw_legends_page_granular (R := nat) lm 15 ltac:(lia)) as H.
  cbv zeta in H. subst figure'.
  destruct (LegendManager.draw_legends lm LegendManager.empty_figure 15 false)
    as [f log].
  destruct H as (H1 & H2 & _). split; [lia|]. split; [exact H1|exact H2].
Defined.


(** ** BokehSourceInterface: hover data *)

Section MoreDataDict.

Context {R : Type}.
Implicit Types (lm : LegendManager.t R) (o : pyobj) (keys : list string).
Implicit Types (acc d : ColumnDataSource).

Lemma resolvable_dec o (k : string) : Decision (resolvable o k).
Proof.
  unfold resolvable, resolves_param.
  destruct (cls o); apply _.
Qed.

(** One round of the loop, on a key that can be filled in. *)
Lemma data_dict_step_ok o acc (k : string) lm :
  resolvable o k →
  ∃ s,
    data_dict_step o acc k lm
    = (Ok (<[k := [CText [Py.Lit s]]]> acc),
       if bool_decide (k = "legend_label" ∧ getattr o k = None)
       then (LegendManager.get_label lm o).2 else lm)
    ∧ (∀ v, getattr o k = Some v → s = k +:+ " = " +:+ v)
    ∧ (k = "legend_label" → getattr o k = None →
       s = "legend_label = " +:+ (LegendManager.get_label lm o).1).
Proof.
  intros Hres. unfold data_dict_step.
  destruct (getattr o k) as [v|] eqn:Eattr.
  - exists (k +:+ " = " +:+ v). rewrite bool_decide_false by naive_solver.
    split_and!; [done|by intros ? [= ->]|done].
  - destruct Hres as [[? ?]|[->|[-> Hp]]]; [congruence| |].
    + unfold mbind, M_bind. rewrite description_legend_label.
      eexists. rewrite bool_decide_true by done. split_and!; done.
    + unfold mbind, M_bind.
      destruct (description_param_ok o lm Hp) as [s ->].
      exists s. rewrite bool_decide_false by naive_solver.
      split_and!; done.
Qed.

(** One round of the loop, on a key that cannot. *)
Lemma data_dict_step_fails o acc (k : string) lm :
  ¬ resolvable o k →
  data_dict_step o acc k lm
  = (Raise (if bool_decide (k = "callback_param")
            then UnboundLocalError "description" else NotImplementedError), lm).
Proof.
  intros Hres. unfold data_dict_step, resolvable in *.
  destruct (getattr o k) as [v|] eqn:Eattr; [exfalso; eauto|].
  unfold mbind, M_bind. case_bool_decide as Hk.
  - subst k. rewrite description_param_unbound; [done|]. naive_solver.
  - rewrite description_no_rule; [done|done|naive_solver].
Qed.

(** The manager after the loop: the one before it, or that one with the
    object labelled. *)
Lemma data_dict_loop_ok o keys acc lm0 lm :
  Forall (resolvable o) keys →
  lm = lm0 ∨ lm = (LegendManager.get_label lm0 o).2 →
  ∃ d lm',
    for_each keys (data_dict_step o) acc lm = (Ok d, lm')
    ∧ (lm' = lm ∨ lm' = (LegendManager.get_label lm0 o).2)
    ∧ ("legend_label" ∈ keys → getattr o "legend_label" = None →
       lm' = (LegendManager.get_label lm0 o).2)
    ∧ dom d = dom acc ∪ list_to_set keys
    ∧ (∀ k, k ∉ keys → d !! k = acc !! k)
    ∧ (∀ k, k ∈ keys → ∃ s, d !! k = Some [CText [Py.Lit s]])
    ∧ (∀ k v, k ∈ keys → getattr o k = Some v →
       d !! k = Some [CText [Py.Lit (k +:+ " = " +:+ v)]])
    ∧ ("legend_label" ∈ keys → getattr o "legend_label" = None →
       d !! "legend_label"
       = Some [CText [Py.Lit ("legend_label = "
                              +:+ (LegendManager.get_label lm0 o).1)]]).
Proof.
  intros Hres. revert acc lm.
  induction Hres as [|k keys Hk _ IH]; intros acc lm Hlm.
  - exists acc, lm. cbn. split_and!; try done; set_solver.
  - cbn [for_each]. unfold mbind at 1, M_bind at 1.
    destruct (data_dict_step_ok o acc k lm Hk) as (s & -> & Hattr & Hlabel).
    set (lm1 := if bool_decide (k = "legend_label" ∧ getattr o k = None)
                then (LegendManager.get_label lm o).2 else lm).
    assert (LegendManager.get_label lm o
            = ((LegendManager.get_label lm0 o).1, (LegendManager.get_label lm0 o).2)
            ∨ lm = lm0) as Hview.
    { destruct Hlm as [-> | ->]; [by right|left].
      apply get_label_hit, get_label_cached. }
    assert (lm1 = lm ∨ lm1 = (LegendManager.get_label lm0 o).2) as Hlm1.
    { unfold lm1. case_bool_decide; [|by left]. right.
      destruct Hview as [-> | ->]; done. }
    assert (lm1 = lm0 ∨ lm1 = (LegendManager.get_label lm0 o).2) as Hlm1'
      by (destruct Hlm1 as [->|]; [done|by right]).
    destruct (IH (<[k := [CText [Py.Lit s]]]> acc) lm1 Hlm1')
      as (d & lm' & Hrun & Hst & Hreq & Hdom & Hout & Hin & Hval & Hleg).
    exists d, lm'. split; [exact Hrun|].
    assert (k = "legend_label" → getattr o k = None →
            lm1 = (LegendManager.get_label lm0 o).2
            ∧ s = "legend_label = " +:+ (LegendManager.get_label lm0 o).1) as Hfirst.
    { intros -> Hn. unfold lm1. rewrite bool_decide_true by done.
      rewrite (Hlabel eq_refl Hn). destruct Hview as [-> | ->]; done. }
    split_and!.
    + destruct Hst as [->|]; [|by right]. destruct Hlm1 as [->|]; [by left|by right].
    + intros [Hk0|Hin']%elem_of_cons Hn; [|by apply Hreq].
      symmetry in Hk0. rewrite <- Hk0 in Hn.
      destruct (Hfirst Hk0 Hn) as [E _].
      destruct Hst as [->|]; [done|done].
    + rewrite Hdom, dom_insert_L. set_solver.
    + intros k' Hk'. rewrite Hout by set_solver.
      rewrite lookup_insert_ne; [done|set_solver].
    + intros k' [->|Hk']%elem_of_cons; [|by apply Hin].
      destruct (decide (k ∈ keys)); [by apply Hin|].
      rewrite Hout by done. rewrite lookup_insert_eq. eauto.
    + intros k' v [->|Hk']%elem_of_cons Hv; [|by apply Hval].
      destruct (decide (k ∈ keys)); [by apply Hval|].
      rewrite Hout by done. by rewrite lookup_insert_eq, (Hattr v Hv).
    + intros [Hk0|Hk']%elem_of_cons Hn; [|by apply Hleg].
      destruct (decide ("legend_label" ∈ keys)); [by apply Hleg|].
      rewrite Hout by done. symmetry in Hk0. rewrite <- Hk0 in Hn.
      destruct (Hfirst Hk0 Hn) as [_ ->]. rewrite <- Hk0.
      by rewrite lookup_insert_eq.
Qed.

(** The loop stops at the first key that cannot be filled in. *)
Lemma data_dict_loop_fails o (pre post : list string) (k : string) acc lm :
  Forall (resolvable o) pre → ¬ resolvable o k →
  ∃ lm',
    for_each (pre ++ k :: post) (data_dict_step o) acc lm
    = (Raise (if bool_decide (k = "callback_param")
              then UnboundLocalError "description" else NotImplementedError), lm')
    ∧ (lm' = lm ∨ lm' = (LegendManager.get_label lm o).2)
    ∧ ("legend_label" ∈ pre → getattr o "legend_label" = None →
       lm' = (LegendManager.get_label lm o).2).
Proof.
  intros Hpre Hk.
  destruct (data_dict_loop_ok o pre acc lm lm Hpre (or_introl eq_refl))
    as (d & lm' & Hrun & Hst & Hreq & _).
  exists lm'. split; [|done].
  clear Hst Hreq. revert acc lm Hrun.
  induction pre as [|k0 pre IH]; intros acc lm Hrun.
  - cbn in Hrun. injection Hrun as -> ->.
    cbn [app for_each]. unfold mbind at 1, M_bind at 1.
    by rewrite data_dict_step_fails.
  - cbn [app for_each] in *. unfold mbind at 1, M_bind at 1 in Hrun.
    unfold mbind at 1, M_bind at 1.
    destruct (data_dict_step o acc k0 lm) as [[acc1|e] lm1]; [|done].
    apply IH; [by eapply Forall_inv_tail|done].
Qed.

End MoreDataDict.

Section DataDictTheorems.

Context {R : Type}.
Implicit Types (lm : LegendManager.t R) (o : pyobj) (keys : list string).

Lemma first_unresolvable o keys :
  ¬ Forall (resolvable o) keys →
  ∃ pre k post,
    keys = pre ++ k :: post ∧ Forall (resolvable o) pre ∧ ¬ resolvable o k.
Proof.
  induction keys as [|k keys IH]; intros Hnot; [by destruct Hnot|].
  destruct (resolvable_dec o k) as [Hk|Hk].
  - destruct IH as (pre & k' & post & -> & Hpre & Hk').
    { intros Hall. apply Hnot. by constructor. }
    exists (k :: pre), k', post. split_and!; [done|by constructor|done].
  - exists [], k, keys. split_and!; [done|constructor|done].
Qed.

Lemma get_data_dict_unfold `{BokehSourceInterface.SourceKeys} o lm keys :
  BokehSourceInterface._get_source_keys o = Ok keys →
  BokehSourceInterface._get_data_dict o lm
  = for_each keys (data_dict_step o) ∅ lm.
Proof.
  intros Hkeys. unfold BokehSourceInterface._get_data_dict.
  unfold mbind at 1, M_bind at 1, lift at 1. by rewrite Hkeys.
Qed.

Lemma get_data_dict_ok_inv `{BokehSourceInterface.SourceKeys} o lm keys :
  BokehSourceInterface._get_source_keys o = Ok keys →
  is_ok (BokehSourceInterface._get_data_dict o lm).1 = true →
  Forall (resolvable o) keys.
Proof.
  intros Hkeys Hok. rewrite (get_data_dict_unfold o lm keys Hkeys) in Hok.
  destruct (@decide _ (@Forall_dec _ _ (resolvable_dec o) keys)) as [|Hnot]; [done|].
  exfalso. destruct (first_unresolvable o keys Hnot)
      as (pre & k & post & -> & Hpre & Hk).
  destruct (data_dict_loop_fails o pre post k ∅ lm Hpre Hk) as (lm' & Hrun & _).
  by rewrite Hrun in Hok.
Qed.

(** X8. The hover data of an object can be built exactly when each of its
    source keys is an attribute of the object, or is [legend_label], or is
    [callback_param] on a timer or subscription callback. *)
Theorem get_data_dict_succeeds_iff (source : BokehSourceInterface.SourceKeys)
    o lm keys
    (Hkeys : BokehSourceInterface._get_source_keys o = Ok keys) :
  is_ok (BokehSourceInterface._get_data_dict o lm).1 = true
  ↔ Forall (resolvable o) keys.
Proof.
  split; [by apply get_data_dict_ok_inv|].
  intros Hall. rewrite (get_data_dict_unfold o lm keys Hkeys).
  destruct (data_dict_loop_ok o keys ∅ lm lm Hall (or_introl eq_refl))
    as (d & lm' & -> & _). done.
Qed.

(** X9. When the hover data is built, it has exactly the source keys as
    columns, each holding one line of text: [key = value] for an attribute,
    and for [legend_label] the label of the object.  The legend manager is
    left as it was, unless the label had to be looked up: then it is as
    [get_label] leaves it. *)
Theorem get_data_dict_shape (source : BokehSourceInterface.SourceKeys)
    o lm keys (d : ColumnDataSource) (lm' : LegendManager.t R)
    (Hkeys : BokehSourceInterface._get_source_keys o = Ok keys)
    (Hrun : BokehSourceInterface._get_data_dict o lm = (Ok d, lm')) :
  dom d = list_to_set keys
  ∧ (∀ k, k ∈ keys → ∃ s, d !! k = Some [CText [Py.Lit s]])
  ∧ (∀ k v, k ∈ keys → getattr o k = Some v →
     d !! k = Some [CText [Py.Lit (k +:+ " = " +:+ v)]])
  ∧ ("legend_label" ∈ keys → getattr o "legend_label" = None →
     d !! "legend_label"
     = Some [CText [Py.Lit ("legend_label = " +:+ (LegendManager.get_label lm o).1)]]
     ∧ lm' = (LegendManager.get_label lm o).2)
  ∧ (lm' = lm ∨ lm' = (LegendManager.get_label lm o).2).
Proof.
  assert (Forall (resolvable o) keys) as Hall.
  { apply (get_data_dict_ok_inv o lm keys Hkeys). by rewrite Hrun. }
  rewrite (get_data_dict_unfold o lm keys Hkeys) in Hrun.
  destruct (data_dict_loop_ok o keys ∅ lm lm Hall (or_introl eq_refl))
    as (d0 & lm0 & Hrun0 & Hst & Hreq & Hdom & _ & Hin & Hval & Hleg).
  rewrite Hrun in Hrun0. injection Hrun0 as <- <-.
  split_and!; [|done|done| |done].
  - rewrite Hdom, dom_empty_L. set_solver.
  - intros Hk Hn. split; [by apply Hleg|by apply Hreq].
Qed.

(** X10. Building the hover data stops at the first source key that can
    not be filled in: with [UnboundLocalError] when that key is
    [callback_param], with [NotImplementedError] otherwise.  A label looked
    up for an earlier key stays assigned. *)
Theorem get_data_dict_first_failure (source : BokehSourceInterface.SourceKeys)
    o lm (pre post : list string) (k : string)
    (Hkeys : BokehSourceInterface._get_source_keys o = Ok (pre ++ k :: post))
    (Hpre : Forall (resolvable o) pre)
    (Hk : ¬ resolvable o k) :
  ∃ lm',
    BokehSourceInterface._get_data_dict o lm
    = (Raise (if bool_decide (k = "callback_param")
              then UnboundLocalError "description" else NotImplementedError), lm')
    ∧ (lm' = lm ∨ lm' = (LegendManager.get_label lm o).2)
    ∧ ("legend_label" ∈ pre → getattr o "legend_label" = None →
       lm' = (LegendManager.get_label lm o).2).
Proof.
  rewrite (get_data_dict_unfold o lm _ Hkeys).
  by apply data_dict_loop_fails.
Qed.

End DataDictTheorems.

Lemma get_data_dict_succeeds_iff_witness :
  is_ok (BokehSourceInterface._get_data_dict (H := LineSource.source_keys)
           timer_cb (LegendManager.init (GlyphRenderer := nat))).1 = true
  ↔ Forall (resolvable timer_cb)
      ["legend_label"; "node_name"; "callback_name"; "callback_type";
       "callback_param"; "symbol"].
Proof.
  exact (get_data_dict_succeeds_iff (R := nat) LineSource.source_keys timer_cb
           LegendManager.init _ eq_refl).
Defined.

Lemma get_data_dict_shape_witness :
  ∃ d lm',
    BokehSourceInterface._get_data_dict (H := LineSource.source_keys)
      timer_cb (LegendManager.init (GlyphRenderer := nat)) = (Ok d, lm')
    ∧ d !! "node_name" = Some [CText [Py.Lit "node_name = /talker"]]
    ∧ d !! "legend_label" = Some [CText [Py.Lit "legend_label = timercallback0"]]
    ∧ lm' = (LegendManager.get_label LegendManager.init timer_cb).2.
Proof.
  destruct (BokehSourceInterface._get_data_dict (H := LineSource.source_keys)
              timer_cb (LegendManager.init (GlyphRenderer := nat)))
    as [[d|e] lm'] eqn:E; [|vm_compute in E; discriminate].
  destruct (get_data_dict_shape (R := nat) LineSource.source_keys timer_cb
              LegendManager.init _ d lm' eq_refl E) as (_ & _ & Hval & Hleg & _).
  exists d, lm'. split; [reflexivity|].
  split; [apply (Hval "node_name" "/talker");
            [apply list_elem_of_further, list_elem_of_here|reflexivity]|].
  destruct (Hleg (list_elem_of_here _ _) eq_refl) as [H1 H2].
  split; [exact H1|exact H2].
Defined.

Lemma get_data_dict_first_failure_witness :
  ∃ lm',
    BokehSourceInterface._get_data_dict (H := LineSource.source_keys)
      service_cb (LegendManager.init (GlyphRenderer := nat))
    = (Raise (UnboundLocalError "description"), lm')
    ∧ lm' = (LegendManager.get_label LegendManager.init service_cb).2.
Proof.
  assert (Forall (resolvable service_cb)
            ["legend_label"; "node_name"; "callback_name"; "callback_type"])
    as Hpre.
  { repeat (apply List.Forall_cons;
              [first [by (right; left) | (left; eexists; reflexivity)]|]).
    apply List.Forall_nil. }
  assert (¬ resolvable service_cb "callback_param") as Hk.
  { intros [[v Hv]|[?|[_ []]]]; discriminate. }
  destruct (get_data_dict_first_failure (R := nat) LineSource.source_keys service_cb
              LegendManager.init
              ["legend_label"; "node_name"; "callback_name"; "callback_type"]
              ["symbol"] "callback_param" eq_refl Hpre Hk)
    as (lm' & Hrun & _ & Hreq).
  exists lm'. split; [exact Hrun|].
  apply Hreq; [apply list_elem_of_here|reflexivity].
Defined.

(** ** BokehSourceInterface: the hover tool *)

Section Hover.








End Hover.

(** ** LineSource: reading the records *)

Section MoreLineSource.

Context {R : Type}.
Implicit Types (lm : LegendManager.t R) (o : pyobj).
Implicit Types (self : LineSource.t) (recs : LineSource.RecordsInterface).

Lemma omap_id_full {A} (l : list (option A)) :
  length (omap id l) = length l → l = Some <$> omap id l.
Proof.
  induction l as [|[x|] l IH]; cbn; intros Hlen.
  - done.
  - f_equal. apply IH. lia.
  - pose proof (omap_id_length l). lia.
Qed.

Lemma none_or_all_some {A} (l : list (option A)) :
  None ∈ l ∨ ∃ l', l = Some <$> l'.
Proof.
  induction l as [|[x|] l [IH|[l' ->]]].
  - right. by exists [].
  - left. by apply list_elem_of_further.
  - right. by exists (x :: l').
  - left. apply list_elem_of_here.
  - left. apply list_elem_of_here.
Qed.

Lemma all_some_no_none {A} (l : list A) : None ∉ Some <$> l.
Proof. intros (x & [=] & _)%list_elem_of_fmap. Qed.

(** X12. [ensure_not_none] gives a list back exactly when the sequence
    holds no [None], and then it is the sequence itself; in every other
    case it raises [AssertionError]: a missing value is never dropped in
    silence. *)
Theorem ensure_not_none_exact (target_seq : list (option Py.num)) :
  (∀ l, LineSource.ensure_not_none target_seq = Ok l ↔ target_seq = Some <$> l)
  ∧ (LineSource.ensure_not_none target_seq = Raise AssertionError
     ↔ None ∈ target_seq)
  ∧ (∀ e, LineSource.ensure_not_none target_seq = Raise e → e = AssertionError).
Proof.
  split_and!.
  - intros l. split.
    + unfold LineSource.ensure_not_none.
      destruct (Nat.eqb_spec (length target_seq) (length (omap id target_seq)))
        as [Hlen|]; [|done].
      intros [= <-]. by apply omap_id_full.
    + intros ->. apply ensure_not_none_present.
  - split; [|apply ensure_not_none_missing].
    unfold LineSource.ensure_not_none.
    destruct (Nat.eqb_spec (length target_seq) (length (omap id target_seq)))
      as [|Hlen]; [done|]. intros _.
    destruct (none_or_all_some target_seq) as [|[l' ->]]; [done|].
    exfalso. apply Hlen. rewrite length_fmap. f_equal.
    clear. induction l' as [|x l' IH]; cbn; [done|by f_equal].
  - intros e. unfold LineSource.ensure_not_none. by case_match; intros [=].
Qed.

(** X13. Records with fewer than two columns make [_get_x_y] raise
    [IndexError], whatever the axis type and the data. *)
Theorem get_x_y_too_few_columns self recs
    (Hcolumns : length (LineSource.columns recs) < 2) :
  LineSource._get_x_y self recs = Raise IndexError.
Proof.
  unfold LineSource._get_x_y, LineSource.item.
  destruct (LineSource.columns recs) as [|c0 [|c1 cols]]; cbn in *; [done|done|lia].
Qed.

(** X14. On columns without [None], an axis type other than
    [system_time], [index] and [sim_time] is not refused: no branch assigns
    the x values, and [_get_x_y] ends in [UnboundLocalError]. *)
Theorem get_x_y_unknown_axis self recs (ts_column value_column : string)
    (timestamps values : list Py.num)
    (Hts : LineSource.columns recs !! 0 = Some ts_column)
    (Hvalue : LineSource.columns recs !! 1 = Some value_column)
    (Htimestamps : LineSource.get_column_series recs ts_column = Some <$> timestamps)
    (Hvalues : LineSource.get_column_series recs value_column = Some <$> values)
    (Haxis : LineSource._xaxis_type self ∉ ["system_time"; "index"; "sim_time"]) :
  LineSource._get_x_y self recs = Raise (UnboundLocalError "x_item").
Proof.
  rewrite (get_x_y_values self recs _ _ _ _ Hts Hvalue Htimestamps Hvalues).
  cbv zeta.
  destruct (String.eqb_spec (LineSource._xaxis_type self) "system_time") as [E|_];
    [rewrite E in Haxis; set_solver|].
  destruct (String.eqb_spec (LineSource._xaxis_type self) "index") as [E|_];
    [rewrite E in Haxis; set_solver|].
  destruct (String.eqb_spec (LineSource._xaxis_type self) "sim_time") as [E|_];
    [rewrite E in Haxis; set_solver|].
  done.
Qed.

(** X15. When [_get_x_y] returns, there is one y value per entry of the
    value column; and one x value per entry of the value column in [index]
    mode, per time stamp in the other two modes. *)
Theorem get_x_y_lengths self recs (x_item y_item : list Py.num)
    (Hrun : LineSource._get_x_y self recs = Ok (x_item, y_item)) :
  ∃ ts_column value_column,
    LineSource.columns recs !! 0 = Some ts_column
    ∧ LineSource.columns recs !! 1 = Some value_column
    ∧ length y_item = length (LineSource.get_column_series recs value_column)
    ∧ length x_item
      = (if String.eqb (LineSource._xaxis_type self) "index"
         then length (LineSource.get_column_series recs value_column)
         else length (LineSource.get_column_series recs ts_column))
    ∧ (None ∉ LineSource.get_column_series recs ts_column)
    ∧ (None ∉ LineSource.get_column_series recs value_column).
Proof.
  destruct (LineSource.columns recs !! 0) as [tc|] eqn:H0; cycle 1.
  { unfold LineSource._get_x_y, LineSource.item in Hrun. by rewrite H0 in Hrun. }
  destruct (LineSource.columns recs !! 1) as [vc|] eqn:H1; cycle 1.
  { unfold LineSource._get_x_y, LineSource.item in Hrun.
    rewrite H0 in Hrun. cbn [mbind result_bind] in Hrun. by rewrite H1 in Hrun. }
  exists tc, vc.
  destruct (none_or_all_some (LineSource.get_column_series recs tc)) as [Hn|[tss Htss]].
  { rewrite (get_x_y_missing self recs tc vc H0 H1 (or_introl Hn)) in Hrun. done. }
  destruct (none_or_all_some (LineSource.get_column_series recs vc)) as [Hn|[vs Hvs]].
  { rewrite (get_x_y_missing self recs tc vc H0 H1 (or_intror Hn)) in Hrun. done. }
  rewrite (get_x_y_values self recs _ _ _ _ H0 H1 Htss Hvs) in Hrun.
  cbv zeta in Hrun. rewrite Htss, Hvs, !length_fmap.
  assert (length (if LineSource.is_time_column vc
                  then (fun v => Py.Float (Py.mul_float v Py.f_1em6)) <$> vs
                  else vs) = length vs) as Hy
    by (destruct (LineSource.is_time_column vc); [apply length_fmap|done]).
  split_and!; [done|done| | |apply all_some_no_none..].
  - destruct (String.eqb (LineSource._xaxis_type self) "system_time");
      [by injection Hrun as <- <-|].
    destruct (String.eqb (LineSource._xaxis_type self) "index");
      [by injection Hrun as <- <-|].
    destruct (String.eqb (LineSource._xaxis_type self) "sim_time");
      [by injection Hrun as <- <-|done].
  - destruct (String.eqb_spec (LineSource._xaxis_type self) "system_time") as [E|_].
    { rewrite E. cbn. injection Hrun as <- <-. by rewrite length_fmap. }
    destruct (String.eqb (LineSource._xaxis_type self) "index").
    { injection Hrun as <- <-. by rewrite length_fmap, length_seq. }
    destruct (String.eqb (LineSource._xaxis_type self) "sim_time");
      [by injection Hrun as <- <-|done].
Qed.

End MoreLineSource.

Lemma get_x_y_too_few_columns_witness :
  let recs := records_of [("latency", [Some (Py.Int 1)])] in
  length (LineSource.columns recs) < 2
  ∧ LineSource._get_x_y (LineSource.Build (Py.Int 0) "index") recs = Raise IndexError.
Proof.
  intros recs.
  assert (length (LineSource.columns recs) < 2) as H by (vm_compute; lia).
  exact (conj H (get_x_y_too_few_columns (LineSource.Build (Py.Int 0) "index") recs H)).
Defined.

Lemma get_x_y_unknown_axis_witness :
  LineSource._get_x_y (LineSource.Build (Py.Int 10) "bogus") latency_records
  = Raise (UnboundLocalError "x_item").
Proof.
  apply (get_x_y_unknown_axis (LineSource.Build (Py.Int 10) "bogus") latency_records
           "callback_start_timestamp" "latency"
           [Py.Int 10; Py.Int 1000000010] [Py.Int 1000000; Py.Int 2000000]);
    [reflexivity..|].
  rewrite !elem_of_cons, elem_of_nil. intros [?|[?|[?|[]]]]; discriminate.
Defined.

Lemma get_x_y_lengths_witness :
  ∃ ts_column value_column,
    LineSource.columns latency_records !! 0 = Some ts_column
    ∧ LineSource.columns latency_records !! 1 = Some value_column
    ∧ length [Py.Float Py.f_one; Py.Float (Py.float_of_int 2)]
      = length (LineSource.get_column_series latency_records value_column).
Proof.
  destruct (get_x_y_lengths (LineSource.Build (Py.Int 10) "index") latency_records
              [Py.Int 0; Py.Int 1] [Py.Float Py.f_one; Py.Float (Py.float_of_int 2)])
    as (tc & vc & H0 & H1 & Hy & _).
  { vm_compute. reflexivity. }
  exists tc, vc. split; [exact H0|]. split; [exact H1|exact Hy].
Defined.

(** ** The sources that are built *)

Section Sources.

Context {R : Type}.
Implicit Types (lm : LegendManager.t R) (o : pyobj).

Lemma empty_source_lookup (keys : list string) (k : string) :
  empty_source keys !! k = if decide (k ∈ keys) then Some [] else None.
Proof.
  unfold empty_source. induction keys as [|k0 keys IH].
  - cbn. rewrite lookup_empty. by rewrite decide_False by apply not_elem_of_nil.
  - cbn [fmap list_fmap list_to_map foldr].
    destruct (decide (k0 = k)) as [->|Hne].
    + rewrite lookup_insert_eq. by rewrite decide_True by apply list_elem_of_here.
    + rewrite lookup_insert_ne by done. fold (list_to_map (M := ColumnDataSource)
        ((fun k => (k, [])) <$> keys)). rewrite IH.
      destruct (decide (k ∈ keys)).
      * by rewrite decide_True by (by apply list_elem_of_further).
      * rewrite decide_False; [done|]. intros [?|?]%elem_of_cons; congruence.
Qed.

Lemma stream_lookup (source new_data : ColumnDataSource) (k : string)
    (col new : list cell) :
  source !! k = Some col → new_data !! k = Some new →
  stream source new_data !! k = Some (col ++ new).
Proof. intros Hs Hn. unfold stream. by rewrite lookup_union_with, Hs, Hn. Qed.

Lemma stream_dom (source new_data : ColumnDataSource) :
  dom (stream source new_data) = dom source ∪ dom new_data.
Proof.
  apply set_eq. intros k. rewrite elem_of_union, !elem_of_dom.
  unfold stream. rewrite lookup_union_with.
  destruct (source !! k), (new_data !! k); cbn; split;
    intros; try done; eauto; naive_solver.
Qed.

(** Streaming point after point appends, to a column that every point
    fills, the cells of the points in order. *)
Lemma stream_points {P} (points : list P) (new_data : P → ColumnDataSource)
    (cell_of : P → cell) (k : string) (source : ColumnDataSource) (col : list cell) :
  source !! k = Some col →
  (∀ p, new_data p !! k = Some [cell_of p]) →
  fold_left (fun source p => stream source (new_data p)) points source !! k
  = Some (col ++ (cell_of <$> points)).
Proof.
  revert source col. induction points as [|p points IH]; intros source col Hs Hn.
  - cbn. by rewrite app_nil_r.
  - cbn [fold_left fmap list_fmap].
    rewrite (IH _ (col ++ [cell_of p])); [by rewrite <- app_assoc|by apply stream_lookup|done].
Qed.

End Sources.

Section LineSourcePoints.

Context {R : Type}.
Implicit Types (lm : LegendManager.t R) (o : pyobj).

Lemma line_source_keys_cases o (keys : list string) :
  BokehSourceInterface._get_source_keys (SourceKeys := LineSource.source_keys) o
    = Ok keys →
  ("x" ∉ keys) ∧ ("y" ∉ keys).
Proof.
  unfold BokehSourceInterface._get_source_keys, LineSource.source_keys.
  destruct (is_CallbackBase o).
  { intros [= <-]. split; rewrite !elem_of_cons, elem_of_nil; naive_solver. }
  destruct (cls o); intros [= <-];
    split; rewrite !elem_of_cons, elem_of_nil; naive_solver.
Qed.

Lemma get_data_dict_dom `{BokehSourceInterface.SourceKeys} o lm
    (keys : list string) (d : ColumnDataSource) (lm' : LegendManager.t R) :
  BokehSourceInterface._get_source_keys o = Ok keys →
  BokehSourceInterface._get_data_dict o lm = (Ok d, lm') →
  dom d = list_to_set keys
  ∧ ∀ k, k ∈ keys → ∃ s, d !! k = Some [CText [Py.Lit s]].
Proof.
  intros Hkeys Hrun.
  assert (Forall (resolvable o) keys) as Hall.
  { apply (get_data_dict_ok_inv o lm keys Hkeys). by rewrite Hrun. }
  rewrite (get_data_dict_unfold o lm keys Hkeys) in Hrun.
  destruct (data_dict_loop_ok o keys ∅ lm lm Hall (or_introl eq_refl))
    as (d0 & lm0 & Hrun0 & _ & _ & Hdom & _ & Hin & _).
  rewrite Hrun in Hrun0. injection Hrun0 as <- <-.
  split; [|done]. rewrite Hdom, dom_empty_L. set_solver.
Qed.

Lemma fold_left_pairs {A B C} (f : A → B → C → A) (l : list (B * C)) (a : A) :
  fold_left (fun a '(x, y) => f a x y) l a
  = fold_left (fun a p => f a p.1 p.2) l a.
Proof.
  revert a. induction l as [|[x y] l IH]; intros a; [done|]. cbn. apply IH.
Qed.

(** X16. When the source keys, the hover data and the x and y values of
    a target are all there, [generate] returns a line source with one row
    per pair of an x and a y value, in order: column [x] holds the x values,
    column [y] the y values, and every hover column repeats its one line of
    text on each row.  The legend manager is as building the hover data left
    it. *)
Theorem line_source_points (self : LineSource.t) o
    (recs : LineSource.RecordsInterface) lm
    (keys : list string) (d : ColumnDataSource) (lm' : LegendManager.t R)
    (x_item y_item : list Py.num)
    (Hkeys : BokehSourceInterface._get_source_keys
               (SourceKeys := LineSource.source_keys) o = Ok keys)
    (Hdict : BokehSourceInterface._get_data_dict (H := LineSource.source_keys) o lm
             = (Ok d, lm'))
    (Hxy : LineSource._get_x_y self recs = Ok (x_item, y_item)) :
  ∃ line_source,
    LineSource.generate self o recs lm = (Ok line_source, lm')
    ∧ line_source !! "x" = Some (CNum <$> (zip x_item y_item).*1)
    ∧ line_source !! "y" = Some (CNum <$> (zip x_item y_item).*2)
    ∧ (∀ k c, d !! k = Some [c] →
       line_source !! k = Some (replicate (length (zip x_item y_item)) c))
    ∧ (length x_item = length y_item →
       line_source !! "x" = Some (CNum <$> x_item)
       ∧ line_source !! "y" = Some (CNum <$> y_item)).
Proof.
  rewrite generate_unfold, Hkeys, Hdict, Hxy.
  eexists. split; [reflexivity|].
  destruct (line_source_keys_cases o keys Hkeys) as [Hx Hy].
  destruct (get_data_dict_dom o lm keys d lm' Hkeys Hdict) as [Hdom Hcells].
  assert (d !! "x" = None) as Hdx
    by (apply not_elem_of_dom; rewrite Hdom; set_solver).
  assert (d !! "y" = None) as Hdy
    by (apply not_elem_of_dom; rewrite Hdom; set_solver).
  rewrite (fold_left_pairs
    (fun source x y =>
       stream source
         (dict_merge (list_to_map [("x", [CNum x]); ("y", [CNum y])]) d))).
  set (new_data := fun p : Py.num * Py.num =>
         dict_merge (list_to_map [("x", [CNum p.1]); ("y", [CNum p.2])]) d).
  change (fold_left _ (zip x_item y_item) ?s)
    with (fold_left (fun source p => stream source (new_data p))
            (zip x_item y_item) s).
  assert (∀ k, k ∈ "x" :: "y" :: keys →
               empty_source (["x"; "y"] ++ keys) !! k = Some []) as Hinit.
  { intros k Hk. rewrite empty_source_lookup. by rewrite decide_True. }
  assert (line_x : fold_left (fun source p => stream source (new_data p))
                     (zip x_item y_item) (empty_source (["x"; "y"] ++ keys)) !! "x"
                   = Some (CNum <$> (zip x_item y_item).*1)).
  { rewrite (stream_points _ new_data (fun p => CNum p.1) "x" _ []).
    - by rewrite <- list_fmap_compose.
    - apply Hinit. apply list_elem_of_here.
    - intros p. unfold new_data, dict_merge. by rewrite lookup_union_r. }
  assert (line_y : fold_left (fun source p => stream source (new_data p))
                     (zip x_item y_item) (empty_source (["x"; "y"] ++ keys)) !! "y"
                   = Some (CNum <$> (zip x_item y_item).*2)).
  { rewrite (stream_points _ new_data (fun p => CNum p.2) "y" _ []).
    - by rewrite <- list_fmap_compose.
    - apply Hinit. apply list_elem_of_further, list_elem_of_here.
    - intros p. unfold new_data, dict_merge. by rewrite lookup_union_r. }
  split_and!; [done|done| |].
  - intros k c Hk.
    rewrite (stream_points _ new_data (fun _ => c) k _ []).
    + cbn [app]. f_equal. clear. induction (zip x_item y_item); cbn; [done|by f_equal].
    + apply Hinit. do 2 apply list_elem_of_further.
      assert (k ∈ dom d) as Hin by (apply elem_of_dom; eauto).
      rewrite Hdom in Hin. set_solver.
    + intros p. unfold new_data, dict_merge.
      rewrite lookup_union_l'; [done|eauto].
  - intros Hlen. rewrite line_x, line_y.
    by rewrite fst_zip, snd_zip by lia.
Qed.

(** X17. A callback that is neither a timer nor a subscription callback,
    with the attributes every callback has, cannot be drawn as a line or as
    a bar: building its hover data ends in [UnboundLocalError], whatever the
    records are, and the callback has been given a label by then. *)
Theorem other_callbacks_fail_after_labelling (self : LineSource.t)
    (recs : LineSource.RecordsInterface)
    (bar : CallbackSchedBarSource.t) (rect_y_base : Py.float) o lm
    (Hcallback : is_CallbackBase o = true)
    (Hkind : ¬ resolves_param o)
    (Hlabel : getattr o "legend_label" = None)
    (Hparam : getattr o "callback_param" = None)
    (Hnode : is_Some (getattr o "node_name"))
    (Hname : is_Some (getattr o "callback_name"))
    (Htype : is_Some (getattr o "callback_type")) :
  LineSource.generate self o recs lm
  = (Raise (UnboundLocalError "description"), (LegendManager.get_label lm o).2)
  ∧ CallbackSchedBarSource.generate bar o rect_y_base lm
    = (Raise (UnboundLocalError "description"), (LegendManager.get_label lm o).2).
Proof.
  assert (Forall (resolvable o)
            ["legend_label"; "node_name"; "callback_name"; "callback_type"]) as Hpre.
  { repeat (apply List.Forall_cons;
              [first [by (right; left) | by left]|]). apply List.Forall_nil. }
  assert (¬ resolvable o "callback_param") as Hk.
  { intros [[v Hv]|[?|[_ ?]]]; [congruence|done|done]. }
  assert (∀ source : BokehSourceInterface.SourceKeys,
            BokehSourceInterface._get_source_keys o
            = Ok (["legend_label"; "node_name"; "callback_name"; "callback_type"]
                  ++ "callback_param" :: ["symbol"]) →
            BokehSourceInterface._get_data_dict o lm
            = (Raise (UnboundLocalError "description"),
               (LegendManager.get_label lm o).2)) as Hdict.
  { intros source Hkeys. rewrite (get_data_dict_unfold o lm _ Hkeys).
    destruct (data_dict_loop_fails o
                ["legend_label"; "node_name"; "callback_name"; "callback_type"]
                ["symbol"] "callback_param" ∅ lm Hpre Hk) as (lm' & -> & _ & Hreq).
    rewrite (Hreq (list_elem_of_here _ _) Hlabel). done. }
  split.
  - rewrite generate_unfold.
    assert (BokehSourceInterface._get_source_keys
              (SourceKeys := LineSource.source_keys) o
            = Ok (["legend_label"; "node_name"; "callback_name"; "callback_type"]
                  ++ "callback_param" :: ["symbol"])) as Hkeys.
    { unfold BokehSourceInterface._get_source_keys, LineSource.source_keys.
      by rewrite Hcallback. }
    by rewrite Hkeys, (Hdict _ Hkeys).
  - unfold CallbackSchedBarSource.generate. unfold mbind at 1, M_bind at 1.
    rewrite (Hdict CallbackSchedBarSource.source_keys); [done|].
    unfold BokehSourceInterface._get_source_keys, CallbackSchedBarSource.source_keys.
    by rewrite Hcallback.
Qed.

End LineSourcePoints.

Lemma line_source_points_witness :
  ∃ line_source lm',
    LineSource.generate (LineSource.Build (Py.Int 10) "index") timer_cb
      latency_records (LegendManager.init (GlyphRenderer := nat))
    = (Ok line_source, lm')
    ∧ line_source !! "x" = Some [CNum (Py.Int 0); CNum (Py.Int 1)]
    ∧ line_source !! "y"
      = Some [CNum (Py.Float Py.f_one); CNum (Py.Float (Py.float_of_int 2))].
Proof.
  destruct (BokehSourceInterface._get_data_dict (H := LineSource.source_keys)
              timer_cb (LegendManager.init (GlyphRenderer := nat)))
    as [[d|e] lm'] eqn:E; [|vm_compute in E; discriminate].
  destruct (line_source_points (R := nat) (LineSource.Build (Py.Int 10) "index")
              timer_cb latency_records LegendManager.init _ d lm'
              [Py.Int 0; Py.Int 1]
              [Py.Float Py.f_one; Py.Float (Py.float_of_int 2)]
              eq_refl E ltac:(vm_compute; reflexivity))
    as (src & Hrun & _ & _ & _ & Hxy).
  exists src, lm'. split; [exact Hrun|]. exact (Hxy eq_refl).
Defined.

Lemma other_callbacks_fail_after_labelling_witness :
  LineSource.generate (LineSource.Build (Py.Int 10) "index") service_cb
    latency_records (LegendManager.init (GlyphRenderer := nat))
  = (Raise (UnboundLocalError "description"),
     (LegendManager.get_label LegendManager.init service_cb).2)
  ∧ LegendManager._legend
      (LegendManager.get_label (LegendManager.init (GlyphRenderer := nat)) service_cb).2
    !! 12 = Some "servicecallback0".
Proof.
  split; [|reflexivity].
  apply (other_callbacks_fail_after_labelling (R := nat)
           (LineSource.Build (Py.Int 10) "index") latency_records
           (CallbackSchedBarSource.Build (Py.Int 0) (Py.Int 100)) Py.f_zero
           service_cb LegendManager.init);
    first [reflexivity | by eexists | by intros []].
Defined.

(** ** CallbackSchedRectSource and CallbackSchedBarSource *)

Section StreamRows.

Lemma stream_rows {P} (points : list P) (new_data : P → ColumnDataSource)
    (source : ColumnDataSource) (n : nat) :
  (∀ p, dom (new_data p) = dom source) →
  (∀ p k col, new_data p !! k = Some col → length col = 1) →
  (∀ k col, source !! k = Some col → length col = n) →
  dom (fold_left (fun source p => stream source (new_data p)) points source)
  = dom source
  ∧ ∀ k col,
      fold_left (fun source p => stream source (new_data p)) points source !! k
      = Some col →
      length col = n + length points.
Proof.
  revert source n. induction points as [|p points IH]; intros source n Hdom Hone Hn.
  - cbn. split; [done|]. intros k col Hk. rewrite (Hn k col Hk). lia.
  - cbn [fold_left length].
    assert (dom (stream source (new_data p)) = dom source) as Hd.
    { rewrite stream_dom, Hdom. set_solver. }
    destruct (IH (stream source (new_data p)) (S n)) as [Hd' Hlen].
    + intros q. by rewrite Hd, Hdom.
    + done.
    + intros k col. unfold stream. rewrite lookup_union_with.
      destruct (source !! k) as [c1|] eqn:E1, (new_data p !! k) as [c2|] eqn:E2;
        cbn; intros [= <-].
      * rewrite length_app, (Hn k c1 E1), (Hone p k c2 E2). lia.
      * exfalso. apply (not_elem_of_dom (new_data p) k); [done|].
        rewrite Hdom. apply elem_of_dom. eauto.
      * exfalso. apply (not_elem_of_dom source k); [done|].
        rewrite <- (Hdom p). apply elem_of_dom. eauto.
    + split; [by rewrite Hd', Hd|].
      intros k col Hk. rewrite (Hlen k col Hk). lia.
Qed.

End StreamRows.

Section RectSource.

Context {R Clip : Type}.
Variable to_dataframe : pyobj → Clip → list (list Py.num).
Implicit Types (lm : LegendManager.t R) (o : pyobj).
Implicit Types (self : CallbackSchedRectSource.t (Clip := Clip)).
Implicit Types (r : list Py.num) (rows : list (list Py.num)).

Lemma row_ends_some r : 2 ≤ length r → is_Some (row_ends r).
Proof.
  intros Hlen. unfold row_ends.
  destruct (lookup_lt_is_Some_2 r 1 ltac:(lia)) as [a ->].
  destruct r as [|x r] using rev_ind; [cbn in Hlen; lia|].
  rewrite last_snoc. cbn. eauto.
Qed.

Lemma row_ends_none r : length r < 2 → r !! 1%nat = None.
Proof. intros Hlen. apply lookup_ge_None_2. lia. Qed.

Lemma row_ends_spec r (ends : Py.num * Py.num) :
  row_ends r = Some ends ↔
  CallbackSchedRectSource.row_first r = Ok ends.1
  ∧ CallbackSchedRectSource.row_last r = Ok ends.2.
Proof.
  unfold row_ends, CallbackSchedRectSource.row_first,
    CallbackSchedRectSource.row_last.
  destruct ends as [a b].
  destruct (r !! 1%nat), (last r); cbn; split; try naive_solver.
Qed.

Lemma rect_row_dom self (label : string) (ends : Py.num * Py.num) :
  dom (rect_row self label ends) = list_to_set rect_columns.
Proof.
  unfold rect_row, rect_columns. cbn [list_to_map foldr].
  rewrite !dom_insert_L, dom_empty_L. cbn [list_to_set foldr]. set_solver.
Qed.

Lemma rect_row_cells self (label : string) (ends : Py.num * Py.num)
    (k : string) (col : list cell) :
  rect_row self label ends !! k = Some col → length col = 1.
Proof.
  unfold rect_row. cbn [list_to_map foldr]. intros Hk.
  repeat (apply lookup_insert_Some in Hk as [[_ <-]|[_ Hk]]; [done|]).
  by rewrite lookup_empty in Hk.
Qed.

(** One round of the loop over the rows. *)
Lemma generate_row_ok self o (src : ColumnDataSource) r
    (ends : Py.num * Py.num) lm :
  row_ends r = Some ends →
  CallbackSchedRectSource.generate_row self o src r lm
  = (Ok (stream src
           (rect_row self
              ("legend_label = " +:+ (LegendManager.get_label lm o).1) ends)),
     (LegendManager.get_label lm o).2).
Proof.
  intros [Hf Hl]%row_ends_spec. unfold CallbackSchedRectSource.generate_row.
  unfold mbind at 1, M_bind at 1, lift at 1. rewrite Hf.
  unfold mbind at 1, M_bind at 1, lift at 1. rewrite Hl.
  unfold mbind at 1, M_bind at 1. rewrite description_legend_label.
  reflexivity.
Qed.

Lemma generate_row_short self o (src : ColumnDataSource) r lm :
  length r < 2 →
  CallbackSchedRectSource.generate_row self o src r lm = (Raise IndexError, lm).
Proof.
  intros Hlen. unfold CallbackSchedRectSource.generate_row.
  unfold mbind at 1, M_bind at 1, lift at 1.
  unfold CallbackSchedRectSource.row_first. by rewrite row_ends_none.
Qed.

(** The loop: every row is streamed under the one label of the callback,
    which the first row registers. *)
Lemma generate_rows_ok self o rows (ends : list (Py.num * Py.num))
    (src : ColumnDataSource) lm0 lm :
  Forall2 (fun r e => row_ends r = Some e) rows ends →
  lm = lm0 ∨ lm = (LegendManager.get_label lm0 o).2 →
  for_each rows (CallbackSchedRectSource.generate_row self o) src lm
  = (Ok (fold_left
           (fun source e =>
              stream source
                (rect_row self
                   ("legend_label = " +:+ (LegendManager.get_label lm0 o).1) e))
           ends src),
     match ends with [] => lm | _ => (LegendManager.get_label lm0 o).2 end).
Proof.
  intros Hrows. revert src lm.
  induction Hrows as [|r e rows ends He _ IH]; intros src lm Hlm; [done|].
  cbn [for_each fold_left]. unfold mbind at 1, M_bind at 1.
  rewrite (generate_row_ok self o src r e lm He).
  assert (LegendManager.get_label lm o
          = ((LegendManager.get_label lm0 o).1, (LegendManager.get_label lm0 o).2))
    as ->.
  { destruct Hlm as [-> | ->]; [by destruct (LegendManager.get_label lm0 o)|].
    apply get_label_hit, get_label_cached. }
  cbn [fst snd]. rewrite IH by (by right). by destruct ends.
Qed.

Lemma generate_rows_short self o (pre post : list (list Py.num)) r
    (src : ColumnDataSource) lm :
  Forall (fun r => 2 ≤ length r) pre → length r < 2 →
  for_each (pre ++ r :: post) (CallbackSchedRectSource.generate_row self o) src lm
  = (Raise IndexError,
     match pre with [] => lm | _ => (LegendManager.get_label lm o).2 end).
Proof.
  intros Hpre Hr.
  assert (∀ lm1, lm1 = lm ∨ lm1 = (LegendManager.get_label lm o).2 →
    for_each (pre ++ r :: post) (CallbackSchedRectSource.generate_row self o) src lm1
    = (Raise IndexError,
       match pre with [] => lm1 | _ => (LegendManager.get_label lm o).2 end))
    as Hgen; [|by apply Hgen; left].
  revert src. induction Hpre as [|r0 pre Hr0 _ IH]; intros src lm1 Hlm1.
  - cbn [app for_each]. unfold mbind at 1, M_bind at 1.
    by rewrite generate_row_short.
  - cbn [app for_each]. unfold mbind at 1, M_bind at 1.
    destruct (row_ends_some r0 Hr0) as [e He].
    rewrite (generate_row_ok self o src r0 e lm1 He).
    assert ((LegendManager.get_label lm1 o).2 = (LegendManager.get_label lm o).2)
      as Hst.
    { destruct Hlm1 as [-> | ->]; [done|].
      by rewrite (get_label_hit _ o _ (get_label_cached lm o)). }
    rewrite Hst, IH by (by right). by destruct pre.
Qed.

Lemma generate_rect_unfold self o lm :
  is_CallbackBase o = true →
  CallbackSchedRectSource.generate to_dataframe self o lm
  = for_each (to_dataframe o (CallbackSchedRectSource._clip self))
      (CallbackSchedRectSource.generate_row self o)
      (empty_source rect_columns) lm.
Proof.
  intros Hcb. unfold CallbackSchedRectSource.generate.
  unfold mbind at 1, M_bind at 1, lift at 1.
  unfold BokehSourceInterface._get_source_keys, CallbackSchedRectSource.source_keys.
  by rewrite Hcb.
Qed.

Lemma rows_ends rows :
  Forall (fun r => 2 ≤ length r) rows →
  ∃ ends, Forall2 (fun r e => row_ends r = Some e) rows ends.
Proof.
  induction 1 as [|r rows Hr _ [ends IH]]; [by exists []|].
  destruct (row_ends_some r Hr) as [e He]. exists (e :: ends). by constructor.
Qed.

Lemma first_short_row rows :
  ¬ Forall (fun r => 2 ≤ length r) rows →
  ∃ pre r post,
    rows = pre ++ r :: post ∧ Forall (fun r => 2 ≤ length r) pre ∧ length r < 2.
Proof.
  induction rows as [|r rows IH]; intros Hnot; [by destruct Hnot|].
  destruct (decide (2 ≤ length r)) as [Hr|Hr].
  - destruct IH as (pre & r' & post & -> & Hpre & Hr').
    { intros Hall. apply Hnot. by constructor. }
    exists (r :: pre), r', post. split_and!; [done|by constructor|done].
  - exists [], r, rows. split_and!; [done|constructor|lia].
Qed.

(** X18. For a callback whose data frame has rows with a first and a last
    column, [generate] gives a rect source with the eight rect columns, each
    with one cell per row, in the order of the rows.  All rows carry the one
    label of the callback; the legend manager is as one [get_label] on the
    callback leaves it when there is a row, and as it was otherwise.  The
    centre and the width of a rectangle are the mean and the distance of the
    two ends of its row. *)
Theorem rect_source_rows self o lm (ends : list (Py.num * Py.num))
    (Hcallback : is_CallbackBase o = true)
    (Hrows : Forall2 (fun r e => row_ends r = Some e)
               (to_dataframe o (CallbackSchedRectSource._clip self)) ends) :
  ∃ rect_source,
    CallbackSchedRectSource.generate to_dataframe self o lm
    = (Ok rect_source,
       match ends with [] => lm | _ => (LegendManager.get_label lm o).2 end)
    ∧ dom rect_source = list_to_set rect_columns
    ∧ (∀ k col, rect_source !! k = Some col → length col = length ends)
    ∧ rect_source !! "legend_label"
      = Some (replicate (length ends)
                (CText [Py.Lit ("legend_label = "
                                +:+ (LegendManager.get_label lm o).1)]))
    ∧ rect_source !! "x"
      = Some ((fun e => CNum (Py.Float (Py.np_mean
                 [CallbackSchedRectSource.convert self e.1;
                  CallbackSchedRectSource.convert self e.2]))) <$> ends)
    ∧ rect_source !! "width"
      = Some ((fun e => CNum (Py.abs (Py.sub
                 (CallbackSchedRectSource.convert self e.1)
                 (CallbackSchedRectSource.convert self e.2)))) <$> ends).
Proof.
  rewrite (generate_rect_unfold self o lm Hcallback).
  rewrite (generate_rows_ok self o _ ends _ lm lm Hrows (or_introl eq_refl)).
  eexists. split; [reflexivity|].
  set (label := "legend_label = " +:+ (LegendManager.get_label lm o).1).
  assert (∀ k, k ∈ rect_columns → empty_source rect_columns !! k = Some [])
    as Hinit.
  { intros k Hk. rewrite empty_source_lookup. by rewrite decide_True. }
  assert (dom (empty_source rect_columns) = list_to_set rect_columns) as Hdom0.
  { apply set_eq. intros k. rewrite elem_of_dom, empty_source_lookup.
    rewrite elem_of_list_to_set. destruct (decide (k ∈ rect_columns)).
    - split; [done|eauto].
    - split; [by intros [? ?]|done]. }
  destruct (stream_rows ends (rect_row self label) (empty_source rect_columns) 0)
    as [Hdom Hlen].
  { intros e. by rewrite rect_row_dom, Hdom0. }
  { intros e. apply rect_row_cells. }
  { intros k col. rewrite empty_source_lookup.
    destruct (decide (k ∈ rect_columns)); [by intros [= <-]|done]. }
  split_and!.
  - by rewrite Hdom.
  - exact Hlen.
  - rewrite (stream_points ends (rect_row self label)
               (fun _ => CText [Py.Lit label]) "legend_label" _ []).
    + cbn [app]. f_equal. clear. induction ends; cbn; [done|by f_equal].
    + apply Hinit. unfold rect_columns. set_solver.
    + done.
  - rewrite (stream_points ends (rect_row self label)
               (fun e => CNum (Py.Float (Py.np_mean
                  [CallbackSchedRectSource.convert self e.1;
                   CallbackSchedRectSource.convert self e.2]))) "x" _ []);
      [done|apply Hinit; unfold rect_columns; set_solver|done].
  - rewrite (stream_points ends (rect_row self label)
               (fun e => CNum (Py.abs (Py.sub
                  (CallbackSchedRectSource.convert self e.1)
                  (CallbackSchedRectSource.convert self e.2)))) "width" _ []);
      [done|apply Hinit; unfold rect_columns; set_solver|done].
Qed.

(** X19. [generate] gives a rect source exactly for a callback whose data
    frame has, in every row, a column beside the index; for a target that is
    no callback it raises [NotImplementedError] and leaves the legend
    manager alone. *)
Theorem rect_source_succeeds_iff self o lm :
  (is_ok (CallbackSchedRectSource.generate to_dataframe self o lm).1 = true
   ↔ is_CallbackBase o = true
     ∧ Forall (fun r => 2 ≤ length r)
         (to_dataframe o (CallbackSchedRectSource._clip self)))
  ∧ (is_CallbackBase o = false →
     CallbackSchedRectSource.generate to_dataframe self o lm
     = (Raise NotImplementedError, lm)).
Proof.
  assert (is_CallbackBase o = false →
          CallbackSchedRectSource.generate to_dataframe self o lm
          = (Raise NotImplementedError, lm)) as Hno.
  { intros Hcb. unfold CallbackSchedRectSource.generate.
    unfold mbind at 1, M_bind at 1, lift at 1.
    unfold BokehSourceInterface._get_source_keys,
      CallbackSchedRectSource.source_keys.
    by rewrite Hcb. }
  split; [|exact Hno].
  destruct (is_CallbackBase o) eqn:Hcb.
  - rewrite (generate_rect_unfold self o lm Hcb). split.
    + intros Hok. split; [done|].
      destruct (decide (Forall (fun r => 2 ≤ length r)
                  (to_dataframe o (CallbackSchedRectSource._clip self))))
        as [|Hnot]; [done|].
      destruct (first_short_row _ Hnot) as (pre & r & post & Hsplit & Hpre & Hr).
      rewrite Hsplit in Hok.
      by rewrite (generate_rows_short self o pre post r _ lm Hpre Hr) in Hok.
    + intros [_ Hall]. destruct (rows_ends _ Hall) as [ends Hends].
      by rewrite (generate_rows_ok self o _ ends _ lm lm Hends (or_introl eq_refl)).
  - rewrite (Hno eq_refl). cbn. split; [done|]. by intros [? _].
Qed.


End RectSource.

Section BarSource.

Context {R : Type}.
Implicit Types (lm : LegendManager.t R) (o : pyobj).

(** X21. When the hover data of a callback can be built, the bar source is
    that data with the four columns of the rectangle beside it: ten columns
    of one cell each.  The rectangle spans the frame: [x] is the mean of
    [frame_min] and [frame_max], [width] their distance.  When the hover
    data cannot be built, the same exception is raised. *)
Theorem bar_source_one_row (self : CallbackSchedBarSource.t) o
    (rect_y_base : Py.float) lm
    (Hcallback : is_CallbackBase o = true) :
  match BokehSourceInterface._get_data_dict
          (H := CallbackSchedBarSource.source_keys) o lm with
  | (Raise e, lm') =>
      CallbackSchedBarSource.generate self o rect_y_base lm = (Raise e, lm')
  | (Ok data_dict, lm') =>
      ∃ bar_source,
        CallbackSchedBarSource.generate self o rect_y_base lm = (Ok bar_source, lm')
        ∧ dom bar_source
          = list_to_set ["x"; "y"; "width"; "height"; "legend_label"; "node_name";
                         "callback_name"; "callback_type"; "callback_param";
                         "symbol"]
        ∧ (∀ k col, bar_source !! k = Some col → length col = 1)
        ∧ (∀ k, k ∈ dom data_dict → bar_source !! k = data_dict !! k)
        ∧ bar_source !! "x"
          = Some [CNum (Py.Float (Py.np_mean
                    [CallbackSchedBarSource._frame_min self;
                     CallbackSchedBarSource._frame_max self]))]
        ∧ bar_source !! "width"
          = Some [CNum (Py.abs (Py.sub (CallbackSchedBarSource._frame_min self)
                                  (CallbackSchedBarSource._frame_max self)))]
  end.
Proof.
  destruct (BokehSourceInterface._get_data_dict
              (H := CallbackSchedBarSource.source_keys) o lm)
    as [[d|e] lm'] eqn:Hdict.
  - assert (BokehSourceInterface._get_source_keys
              (SourceKeys := CallbackSchedBarSource.source_keys) o
            = Ok ["legend_label"; "node_name"; "callback_name";
                  "callback_type"; "callback_param"; "symbol"]) as Hkeys.
    { unfold BokehSourceInterface._get_source_keys,
        CallbackSchedBarSource.source_keys. by rewrite Hcallback. }
    destruct (get_data_dict_dom o lm _ d lm' Hkeys Hdict) as [Hdom Hcells].
    unfold CallbackSchedBarSource.generate. unfold mbind at 1, M_bind at 1.
    rewrite Hdict. eexists. split; [reflexivity|].
    unfold dict_merge.
    assert (∀ k, k ∈ ["x"; "y"; "width"; "height"] → d !! k = None) as Hfree.
    { intros k Hk. apply not_elem_of_dom. rewrite Hdom.
      rewrite elem_of_list_to_set. intros Hin.
      repeat (apply elem_of_cons in Hk as [->|Hk];
        [repeat (apply elem_of_cons in Hin as [Hin|Hin]; [discriminate|]);
         by apply elem_of_nil in Hin|]).
      by apply elem_of_nil in Hk. }
    split_and!.
    + rewrite dom_union_L, Hdom. cbn [list_to_map foldr].
      rewrite !dom_insert_L, dom_empty_L. cbn [list_to_set foldr]. set_solver.
    + intros k col. rewrite lookup_union_Some_raw.
      intros [Hk|[_ Hk]].
      * assert (k ∈ dom d) as Hin by (apply elem_of_dom; eauto).
        rewrite Hdom, elem_of_list_to_set in Hin.
        destruct (Hcells k Hin) as [s Hs]. rewrite Hs in Hk.
        by injection Hk as <-.
      * cbn [list_to_map foldr] in Hk.
        repeat (apply lookup_insert_Some in Hk as [[_ <-]|[_ Hk]]; [done|]).
        by rewrite lookup_empty in Hk.
    + intros k [col Hk]%elem_of_dom. rewrite Hk.
      by apply lookup_union_Some_l.
    + rewrite lookup_union_r by (apply Hfree; set_solver). done.
    + rewrite lookup_union_r by (apply Hfree; set_solver). done.
  - unfold CallbackSchedBarSource.generate. unfold mbind at 1, M_bind at 1.
    by rewrite Hdict.
Qed.

End BarSource.

Lemma rect_source_rows_witness :
  ∃ rect_source,
    CallbackSchedRectSource.generate one_execution
      (CallbackSchedRectSource.new () None) timer_cb
      (LegendManager.init (GlyphRenderer := nat))
    = (Ok rect_source, (LegendManager.get_label LegendManager.init timer_cb).2)
    ∧ rect_source !! "legend_label"
      = Some [CText [Py.Lit "legend_label = timercallback0"]]
    ∧ rect_source !! "width" = Some [CNum (Py.Int 1000000)].
Proof.
  destruct (rect_source_rows (R := nat) one_execution
              (CallbackSchedRectSource.new () None) timer_cb LegendManager.init
              [(Py.Int 0, Py.Int 1000000)] eq_refl
              ltac:(repeat constructor))
    as (src & Hrun & _ & _ & Hlabel & _ & Hwidth).
  exists src. split_and!; [exact Hrun|exact Hlabel|exact Hwidth].
Defined.


Lemma bar_source_one_row_witness :
  ∃ bar_source,
    CallbackSchedBarSource.generate
      (CallbackSchedBarSource.Build (Py.Int 0) (Py.Int 100)) timer_cb Py.f_zero
      (LegendManager.init (GlyphRenderer := nat))
    = (Ok bar_source, (LegendManager.get_label LegendManager.init timer_cb).2)
    ∧ bar_source !! "width" = Some [CNum (Py.Int 100)]
    ∧ bar_source !! "callback_param"
      = Some [CText [Py.Lit "period_ns = 100000000"]].
Proof.
  pose proof (bar_source_one_row (R := nat)
                (CallbackSchedBarSource.Build (Py.Int 0) (Py.Int 100)) timer_cb
                Py.f_zero LegendManager.init eq_refl) as H.
  destruct (BokehSourceInterface._get_data_dict
              (H := CallbackSchedBarSource.source_keys) timer_cb
              (LegendManager.init (GlyphRenderer := nat)))
    as [[d|e] lm'] eqn:E; [|vm_compute in E; discriminate].
  destruct H as (src & Hrun & _ & _ & Hd & _ & Hwidth).
  exists src. split_and!.
  - rewrite Hrun. f_equal. vm_compute in E. by injection E as _ <-.
  - exact Hwidth.
  - assert (d !! "callback_param"
            = Some [CText [Py.Lit "period_ns = 100000000"]]) as Hp.
    { vm_compute in E. injection E as <- _. vm_compute. reflexivity. }
    rewrite Hd; [exact Hp|]. apply elem_of_dom. by rewrite Hp.
Defined.

(** ** CallbackSchedulingPlot: construction, [figure], [show] and [save] *)

Section PlotMore.

Context {CallbackGroup : Type} `{EqDecision CallbackGroup} {Figure : Type}.
Variable callback_scheduling :
  CallbackSchedulingPlot.callback_scheduling_call (CallbackGroup := CallbackGroup) → Figure.

Implicit Types (comms : list (CallbackSchedulingPlot.Communication (CallbackGroup := CallbackGroup))).
Implicit Types (target_objects : CallbackSchedulingPlot.target (CallbackGroup := CallbackGroup)).

Lemma get_callback_groups_cases target_objects :
  (plottable target_objects
   ∧ ∃ groups, CallbackSchedulingPlot._get_callback_groups target_objects = Ok groups)
  ∨ (¬ plottable target_objects
     ∧ ((target_objects = CallbackSchedulingPlot.Path []
         ∧ CallbackSchedulingPlot._get_callback_groups target_objects
           = Raise IndexError)
        ∨ (target_objects ≠ CallbackSchedulingPlot.Path []
           ∧ CallbackSchedulingPlot._get_callback_groups target_objects
             = Raise (InvalidArgumentError "target.callback_groups is None")))).
Proof.
  destruct target_objects as [[g|]|[g|]|[[g|]]|comms|g|gs]; cbn [plottable];
    try (left; split; [done|by eexists]);
    try (right; split; [by intros ?|right; split; done]).
  destruct (last comms) as [final|] eqn:Hlast.
  - pose proof (path_groups comms final Hlast) as Hpath. cbv zeta in Hpath.
    rewrite Hpath. case_decide as Hall.
    + right. split.
      * intros (final' & [= <-] & Hne). done.
      * right. split; [|done]. intros [= ->]. done.
    + left. split; [by exists final|by eexists].
  - apply last_None in Hlast as ->. right. split.
    + by intros (final & Hlast & _).
    + by left.
Qed.

(** X22. A plot can be made exactly from the plottable targets.  It then
    holds the callback groups of its target; otherwise the constructor
    raises [InvalidArgumentError], or [IndexError] for a path that has no
    communication.  An empty sequence, or an application with an empty list
    of callback groups, is accepted. *)
Theorem plot_creation target_objects :
  (is_ok (CallbackSchedulingPlot.new target_objects) = true
   ↔ plottable target_objects)
  ∧ (∀ self, CallbackSchedulingPlot.new target_objects = Ok self →
       CallbackSchedulingPlot._target_objects self = target_objects
       ∧ CallbackSchedulingPlot._get_callback_groups target_objects
         = Ok (CallbackSchedulingPlot._callback_groups self))
  ∧ (∀ e, CallbackSchedulingPlot.new target_objects = Raise e →
       (e = IndexError ∧ target_objects = CallbackSchedulingPlot.Path [])
       ∨ e = InvalidArgumentError "target.callback_groups is None")
  ∧ is_ok (CallbackSchedulingPlot.new
             (CallbackSchedulingPlot.Sequence (CallbackGroup := CallbackGroup) []))
    = true
  ∧ is_ok (CallbackSchedulingPlot.new
             (CallbackSchedulingPlot.Application (CallbackGroup := CallbackGroup)
                (Some [])))
    = true.
Proof.
  unfold CallbackSchedulingPlot.new.
  split_and!; [| | |done|done].
  - destruct (get_callback_groups_cases target_objects)
      as [[Hp [groups ->]]|[Hp [[_ ->]|[_ ->]]]]; cbn; naive_solver.
  - destruct (CallbackSchedulingPlot._get_callback_groups target_objects)
      as [groups|e]; cbn; [|done]. by intros self [= <-].
  - destruct (get_callback_groups_cases target_objects)
      as [[Hp [groups ->]]|[Hp [[-> ->]|[_ ->]]]]; cbn; [done| |].
    + intros e [= <-]. by left.
    + intros e [= <-]. by right.
Qed.

(** X23. The callback groups of a path depend on its publish nodes and on
    the subscribe node of its last communication only: the subscribe nodes
    of the communications before the last are not read. *)
Theorem path_ignores_inner_subscribers comms comms'
    (Hpublish : CallbackSchedulingPlot.publish_node <$> comms
                = CallbackSchedulingPlot.publish_node <$> comms')
    (Hlast : CallbackSchedulingPlot.subscribe_node <$> last comms
             = CallbackSchedulingPlot.subscribe_node <$> last comms') :
  CallbackSchedulingPlot._get_callback_groups (CallbackSchedulingPlot.Path comms)
  = CallbackSchedulingPlot._get_callback_groups (CallbackSchedulingPlot.Path comms').
Proof.
  assert (publish_groups <$> comms = publish_groups <$> comms') as Hgroups.
  { assert (∀ l : list (CallbackSchedulingPlot.Communication
                          (CallbackGroup := CallbackGroup)),
              publish_groups <$> l
              = (fun n : CallbackSchedulingPlot.Node (CallbackGroup := CallbackGroup) =>
                   CallbackSchedulingPlot.or_empty
                     (CallbackSchedulingPlot.callback_groups n))
                <$> (CallbackSchedulingPlot.publish_node <$> l)) as Hvia.
    { intros l. by rewrite <- list_fmap_compose. }
    by rewrite !Hvia, Hpublish. }
  destruct (last comms) as [final|] eqn:E, (last comms') as [final'|] eqn:E';
    cbn in Hlast; try discriminate.
  - injection Hlast as Hsub.
    pose proof (path_groups comms final E) as H1.
    pose proof (path_groups comms' final' E') as H2.
    cbv zeta in H1, H2. rewrite H1, H2, Hgroups.
    unfold subscribe_groups. by rewrite Hsub.
  - apply last_None in E as ->. apply last_None in E' as ->. done.
Qed.

Lemma figure_cases (self : CallbackSchedulingPlot.t)
    (xaxis_type : string) (ywheel_zoom full_legends : bool)
    (coloring_rule : string) (lstrip_s rstrip_s : Py.num) :
  (supported_options xaxis_type coloring_rule
   ∧ CallbackSchedulingPlot.figure callback_scheduling self xaxis_type ywheel_zoom
       full_legends coloring_rule lstrip_s rstrip_s
     = (let call :=
          CallbackSchedulingPlot.BuildCall
            (CallbackSchedulingPlot._callback_groups self) xaxis_type
            ywheel_zoom full_legends coloring_rule lstrip_s rstrip_s in
        ([call], Ok (callback_scheduling call))))
  ∨ (¬ supported_options xaxis_type coloring_rule
     ∧ ∃ msg,
         CallbackSchedulingPlot.figure callback_scheduling self xaxis_type
           ywheel_zoom full_legends coloring_rule lstrip_s rstrip_s
         = ([], Raise (UnsupportedTypeError msg))).
Proof.
  unfold supported_options, CallbackSchedulingPlot.figure,
    CallbackSchedulingPlot._validate_xaxis_type.
  destruct (Py.str_in xaxis_type ["system_time"; "sim_time"]) eqn:Ex;
    [destruct (Py.str_in coloring_rule ["callback"; "callback_group"; "node"])
       eqn:Ec|]; cbn [negb].
  - left. by rewrite <- !str_in_spec.
  - right. split; [|by eexists]. rewrite <- !str_in_spec. intros [_ ?]. congruence.
  - right. split; [|by eexists]. rewrite <- !str_in_spec. intros [? _]. congruence.
Qed.

(** X24. [figure] gives a figure exactly when [xaxis_type] is
    [system_time] or [sim_time] and [coloring_rule] is [callback],
    [callback_group] or [node].  It then makes one call to the visualize
    library, with the callback groups found when the plot was made and the
    arguments as they were given, and returns what the library returns;
    otherwise it makes no call. *)
Theorem figure_accepts_exactly (self : CallbackSchedulingPlot.t)
    (xaxis_type : string) (ywheel_zoom full_legends : bool)
    (coloring_rule : string) (lstrip_s rstrip_s : Py.num) :
  let out :=
    CallbackSchedulingPlot.figure callback_scheduling self xaxis_type ywheel_zoom
      full_legends coloring_rule lstrip_s rstrip_s in
  let call :=
    CallbackSchedulingPlot.BuildCall
      (CallbackSchedulingPlot._callback_groups self) xaxis_type
      ywheel_zoom full_legends coloring_rule lstrip_s rstrip_s in
  (is_ok out.2 = true ↔ supported_options xaxis_type coloring_rule)
  ∧ (is_ok out.2 = true → out = ([call], Ok (callback_scheduling call)))
  ∧ (is_ok out.2 = false → out.1 = []).
Proof.
  cbv zeta.
  destruct (figure_cases self xaxis_type ywheel_zoom full_legends coloring_rule
              lstrip_s rstrip_s) as [[Hs ->]|[Hs [msg ->]]]; cbn;
    split_and!; try done; naive_solver.
Qed.

(** X25. [show] and [save] make the calls of [figure] and no other.  With
    supported options [show] displays the figure once and returns it, and
    [save] writes it once, to [export_path] and under [title]; with
    unsupported ones both raise the error of [figure], and nothing is
    displayed or written.  The [export_path] given to [show] plays no
    part. *)
Theorem show_and_save_follow_figure (self : CallbackSchedulingPlot.t)
    (show_export_path : option string) (export_path title : string)
    (xaxis_type : string) (ywheel_zoom full_legends : bool)
    (coloring_rule : string) (lstrip_s rstrip_s : Py.num) :
  let call :=
    CallbackSchedulingPlot.BuildCall
      (CallbackSchedulingPlot._callback_groups self) xaxis_type
      ywheel_zoom full_legends coloring_rule lstrip_s rstrip_s in
  (supported_options xaxis_type coloring_rule →
   CallbackSchedulingPlot.show callback_scheduling self xaxis_type ywheel_zoom
     full_legends show_export_path coloring_rule lstrip_s rstrip_s
   = ([call], [CallbackSchedulingPlot.Shown (callback_scheduling call)],
      Ok (callback_scheduling call))
   ∧ CallbackSchedulingPlot.save callback_scheduling self export_path title
       xaxis_type ywheel_zoom full_legends coloring_rule lstrip_s rstrip_s
     = ([call],
        [CallbackSchedulingPlot.Saved (callback_scheduling call) export_path title],
        Ok ()))
  ∧ (¬ supported_options xaxis_type coloring_rule →
     ∃ msg,
       CallbackSchedulingPlot.show callback_scheduling self xaxis_type ywheel_zoom
         full_legends show_export_path coloring_rule lstrip_s rstrip_s
       = ([], [], Raise (UnsupportedTypeError msg))
       ∧ CallbackSchedulingPlot.save callback_scheduling self export_path title
           xaxis_type ywheel_zoom full_legends coloring_rule lstrip_s rstrip_s
         = ([], [], Raise (UnsupportedTypeError msg))).
Proof.
  cbv zeta. unfold CallbackSchedulingPlot.show, CallbackSchedulingPlot.save.
  destruct (figure_cases self xaxis_type ywheel_zoom full_legends coloring_rule
              lstrip_s rstrip_s) as [[Hs ->]|[Hs [msg ->]]]; cbv zeta.
  - split; [done|]. by intros [].
  - split; [done|]. intros _. by exists msg.
Qed.

End PlotMore.

(** The axis type [index] is among the unsupported ones. *)
Example figure_rejects_index :
  is_ok (CallbackSchedulingPlot.figure (CallbackGroup := string)
           (fun _ => tt) (CallbackSchedulingPlot.Build
                            (CallbackSchedulingPlot.Sequence ["cbg_a"]) ["cbg_a"])
           "index" true false "callback" (Py.Int 0) (Py.Int 0)).2 = false.
Proof. vm_compute. reflexivity. Qed.

Lemma path_ignores_inner_subscribers_witness :
  CallbackSchedulingPlot._get_callback_groups
    (CallbackSchedulingPlot.Path
       [CallbackSchedulingPlot.BuildCommunication
          (node_of (Some ["cbg_a"; "cbg_b"])) (node_of (Some ["cbg_x"]));
        CallbackSchedulingPlot.BuildCommunication
          (node_of (Some ["cbg_b"; "cbg_c"])) (node_of None)])
  = Ok ["cbg_a"; "cbg_b"; "cbg_c"].
Proof.
  rewrite (path_ignores_inner_subscribers
             [CallbackSchedulingPlot.BuildCommunication
                (node_of (Some ["cbg_a"; "cbg_b"])) (node_of (Some ["cbg_x"]));
              CallbackSchedulingPlot.BuildCommunication
                (node_of (Some ["cbg_b"; "cbg_c"])) (node_of None)]
             two_hops eq_refl eq_refl).
  vm_compute. reflexivity.
Defined.
